(** * SPDM v1.0.0 message formats ([spdm.py]): code tables, version field,
      and the GET_VERSION / VERSION packet layouts.

    The Python module declares its messages as scapy packets: a class is a
    [fields_desc] list, and building or dissecting a packet is scapy walking
    that list.  The embedding keeps that shape: the tables are finite maps,
    a packet class is a list of field descriptors, and [self_build] /
    [do_dissect] are the two walks over it. *)

From Stdlib Require Import ZArith Lia Ascii.
From stdpp Require Import gmap strings list fin_maps sorting.

Set Warnings "-register-all".

Open Scope Z_scope.
Open Scope string_scope.
Open Scope list_scope.

(** ** Code tables *)

(** Python's [list(range(lo, hi))]: [lo], [lo+1], ..., [hi-1]. *)
Definition range (lo hi : Z) : list Z := seqZ lo (hi - lo).

(** A value stored in [REQUEST_CODES] / [RESPONSE_CODES]: the symbolic names
    map to one byte, the ["Reserved"] key maps to a list of bytes. *)
Inductive code_entry :=
| Code (b : Z)
| CodeList (bs : list Z).

Global Instance code_entry_eq_dec : EqDecision code_entry.
Proof. solve_decision. Defined.

Definition INVERSE_REQUEST_CODES : gmap Z string :=
  list_to_map
    [ (0x81, "GET_DIGESTS");
      (0x82, "GET_CERTIFICATE");
      (0x83, "CHALLENGE");
      (0x84, "GET_VERSION");
      (0xE0, "GET_MEASUREMENTS");
      (0xE1, "GET_CAPABILITIES");
      (0xE3, "NEGOTIATE_ALGORITHMS");
      (0xFF, "RESPOND_IF_READY");
      (0xFE, "VENDOR_DEFINED_REQUEST") ].

Definition REQUEST_CODES : gmap string code_entry :=
  list_to_map
    [ ("GET_DIGESTS", Code 0x81);
      ("GET_CERTIFICATE", Code 0x82);
      ("CHALLENGE", Code 0x83);
      ("GET_VERSION", Code 0x84);
      ("GET_MEASUREMENTS", Code 0xE0);
      ("GET_CAPABILITIES", Code 0xE1);
      ("NEGOTIATE_ALGORITHMS", Code 0xE3);
      ("RESPOND_IF_READY", Code 0xFF);
      ("VENDOR_DEFINED_REQUEST", Code 0xFE);
      ("Reserved",
       CodeList (0x80 :: range 0x85 0xDF ++ 0xE2 :: range 0xE4 0xFD)) ].

Definition RESERVED_REQUEST_CODES : list Z :=
  [0x80] ++ range 0x85 0xDF ++ [0xE2] ++ range 0xE4 0xFD.

Definition INVERSE_RESPONSE_CODES : gmap Z string :=
  list_to_map
    [ (0x01, "DIGESTS");
      (0x02, "CERTIFICATE");
      (0x03, "CHALLENGE_AUTH");
      (0x04, "VERSION");
      (0x60, "MEASUREMENTS");
      (0x61, "CAPABILITIES");
      (0x63, "ALGORITHMS");
      (0x7E, "VENDOR_DEFINED_RESPONSE");
      (0x7F, "ERROR") ].

Definition RESPONSE_CODES : gmap string code_entry :=
  list_to_map
    [ ("DIGESTS", Code 0x01);
      ("CERTIFICATE", Code 0x02);
      ("CHALLENGE_AUTH", Code 0x03);
      ("VERSION", Code 0x04);
      ("MEASUREMENTS", Code 0x60);
      ("CAPABILITIES", Code 0x61);
      ("ALGORITHMS", Code 0x63);
      ("VENDOR_DEFINED_RESPONSE", Code 0x7e);
      ("ERROR", Code 0x7f);
      ("Reserved",
       CodeList (0x00 :: range 0x05 0x5F ++ 0x62 :: range 0x64 0x7D)) ].

Definition RESERVED_RESPONSE_CODES : list Z :=
  [0x00] ++ range 0x05 0x5F ++ [0x62] ++ range 0x64 0x7D.

(** The Required / Optional status of a code exists in the module only as the
    trailing comment of its table line ([# Required], [# Optional]).  The two
    lists below transcribe those comments line by line; ["ERROR"] carries no
    comment and therefore has no entry. *)
Inductive classification := Required | Optional | Reserved.

Global Instance classification_eq_dec : EqDecision classification.
Proof. solve_decision. Defined.

Definition REQUEST_CODE_COMMENTS : list (Z * classification) :=
  [ (0x81, Optional); (0x82, Optional); (0x83, Optional); (0x84, Required);
    (0xE0, Optional); (0xE1, Required); (0xE3, Required); (0xFF, Required);
    (0xFE, Optional) ].

Definition RESPONSE_CODE_COMMENTS : list (Z * classification) :=
  [ (0x01, Optional); (0x02, Optional); (0x03, Optional); (0x04, Required);
    (0x60, Optional); (0x61, Required); (0x63, Required); (0x7E, Optional) ].

Inductive direction := Request | Response.

Definition code_comments (d : direction) : list (Z * classification) :=
  match d with
  | Request => REQUEST_CODE_COMMENTS
  | Response => RESPONSE_CODE_COMMENTS
  end.

Definition reserved_codes (d : direction) : list Z :=
  match d with
  | Request => RESERVED_REQUEST_CODES
  | Response => RESERVED_RESPONSE_CODES
  end.

(** The set of bytes carrying classification [c] in direction [d]. *)
Definition code_set (d : direction) (c : classification) : list Z :=
  match c with
  | Reserved => reserved_codes d
  | _ => (filter (λ e, e.2 = c) (code_comments d)).*1
  end.

(** Every classification that applies to byte [b]; "exactly one
    classification" is this list having length one. *)
Definition classifications (d : direction) (b : Z) : list classification :=
  filter (λ c, b ∈ code_set d c) [Required; Optional; Reserved].

(** The two table lookups, [REQUEST_CODES[name]] and
    [INVERSE_REQUEST_CODES[byte]] (and the response pair); a missing key,
    a [KeyError] in Python, is [None]. *)
Definition nameToCode (d : direction) (name : string) : option code_entry :=
  match d with
  | Request => REQUEST_CODES !! name
  | Response => RESPONSE_CODES !! name
  end.

Definition codeToName (d : direction) (b : Z) : option string :=
  match d with
  | Request => INVERSE_REQUEST_CODES !! b
  | Response => INVERSE_RESPONSE_CODES !! b
  end.

(** The half of the byte range a direction's codes live in. *)
Definition own_half (d : direction) (b : Z) : Prop :=
  match d with
  | Request => 0x80 <= b <= 0xFF
  | Response => 0x00 <= b <= 0x7F
  end.

Global Instance own_half_dec d b : Decision (own_half d b).
Proof. destruct d; simpl; apply _. Defined.

(** The bytes of a direction's half that neither a commented table line nor
    a reserved range mentions: the upper ends that the two [range] calls of
    the reserved list stop one short of and, for responses, the code of
    ["ERROR"], whose table line has no Required/Optional comment. *)
Definition unmentioned_codes (d : direction) : list Z :=
  match d with
  | Request => [0xDF; 0xFD]
  | Response => [0x5F; 0x7D; 0x7F]
  end.

(** The bytes of a direction's half that are neither a key of the inverse
    table nor a member of the reserved list. *)
Definition unassigned_codes (d : direction) : list Z :=
  match d with
  | Request => [0xDF; 0xFD]
  | Response => [0x5F; 0x7D]
  end.

(** ** Version field *)

Definition SPDM_VERSION : Z := 0x10.

Module SPDMUtil.
Definition spdm_major_version (version : Z) : Z := Z.land version 0xF0.
Definition spdm_minor_version (version : Z) : Z := Z.land version 0x0F.
End SPDMUtil.

(** ** The scapy layer the packet classes are written against

    What follows is the part of scapy's [fields.py] and [packet.py] that the
    module's two populated classes exercise: [Field.__init__] /
    [addfield] / [getfield] / [i2m], [FieldLenField.i2m],
    [FieldListField], [Packet.__init__], [getfieldval], [do_dissect],
    [self_build], [build] and [__eq__]. *)

(** Python values a field can hold. *)
Inductive value :=
| VNone
| VInt (n : Z)
| VList (l : list value).

Inductive exn := struct_error | TypeError | AttributeError.

Inductive result (A : Type) :=
| Ok (a : A)
| Raise (e : exn).
Arguments Ok {A} a.
Arguments Raise {A} e.

Global Instance result_ret : MRet result := λ A, Ok.
Global Instance result_bind : MBind result :=
  λ A B f m, match m with Ok a => f a | Raise e => Raise e end.

(** [for v in l: s = body(s, v)] *)
Fixpoint for_each {S A : Type} (body : S → A → result S) (s : S) (l : list A)
  : result S :=
  match l with
  | [] => Ok s
  | v :: l => s' ← body s v; for_each body s' l
  end.

(** *** [struct] *)

Inductive byte_order := big_endian | little_endian.

(** The formats the fields below can end up with: a byte-order mark followed
    by one of [B] (one byte) or [H] (two bytes).  ["!"] and [">"] are
    big-endian, ["<"] little-endian; anything else is refused. *)
Definition struct_parse (fmt : string) : option (byte_order * nat) :=
  match fmt with
  | String o (String t EmptyString) =>
      order ← (if bool_decide (o ∈ ["!"; ">"]%char) then Some big_endian
               else if bool_decide (o = "<"%char) then Some little_endian
               else None);
      size ← (if bool_decide (t = "B"%char) then Some 1%nat
              else if bool_decide (t = "H"%char) then Some 2%nat
              else None);
      Some (order, size)
  | _ => None
  end.

Fixpoint le_bytes (size : nat) (v : Z) : list Z :=
  match size with
  | O => []
  | S size => v `mod` 256 :: le_bytes size (v `div` 256)
  end.

Fixpoint le_value (bs : list Z) : Z :=
  match bs with
  | [] => 0
  | b :: bs => b + 256 * le_value bs
  end.

(** [struct.pack(fmt, v)]: an integer outside the format's range is a
    [struct.error]. *)
Definition struct_pack (fmt : string) (v : Z) : result (list Z) :=
  match struct_parse fmt with
  | Some (order, size) =>
      if bool_decide (0 ≤ v < 256 ^ Z.of_nat size) then
        Ok (match order with
            | little_endian => le_bytes size v
            | big_endian => reverse (le_bytes size v)
            end)
      else Raise struct_error
  | None => Raise struct_error
  end.

(** [struct.unpack(fmt, s)[0]]: a buffer whose length is not the format's
    size is a [struct.error]. *)
Definition struct_unpack (fmt : string) (s : list Z) : result Z :=
  match struct_parse fmt with
  | Some (order, size) =>
      if bool_decide (length s = size) then
        Ok (le_value (match order with
                      | little_endian => s
                      | big_endian => reverse s
                      end))
      else Raise struct_error
  | None => Raise struct_error
  end.

Definition struct_size (fmt : string) : nat :=
  match struct_parse fmt with
  | Some (_, size) => size
  | None => 0
  end.

(** [Field.__init__]: a format without a byte-order mark gets ["!"]. *)
Definition field_fmt (fmt : string) : string :=
  match fmt with
  | String c _ =>
      if bool_decide (c ∈ ["@"; "="; "<"; ">"; "!"]%char) then fmt
      else "!" +:+ fmt
  | EmptyString => fmt
  end.

(** *** Fields *)

(** What a [lambda pkt: ...] sees of a packet: attribute access
    [pkt.<name>], which scapy routes to [getfieldval]. *)
Definition attrs : Type := string → value.

Inductive Field :=
| XByteField (name : string) (default : value)
| XShortField (name : string) (default : value)
| FieldLenField (name : string) (default : value) (count_of : string)
    (adjust : attrs → Z → Z) (fmt : string)
| FieldListField (name : string) (field : Field) (default : value)
    (count_from : attrs → value).

Definition fld_name (f : Field) : string :=
  match f with
  | XByteField name _ | XShortField name _ | FieldLenField name _ _ _ _
  | FieldListField name _ _ _ => name
  end.

(** [FieldListField.__init__] replaces a [None] default by a fresh [[]]. *)
Definition fld_default (f : Field) : value :=
  match f with
  | XByteField _ d | XShortField _ d | FieldLenField _ d _ _ _ => d
  | FieldListField _ _ VNone _ => VList []
  | FieldListField _ _ d _ => d
  end.

(** The [struct] format a field is created with: [ByteField] passes ["B"],
    [ShortField] passes ["H"], [FieldLenField] its [fmt] argument, and
    [FieldListField] keeps [Field]'s own default ["H"]. *)
Definition fld_fmt (f : Field) : string :=
  match f with
  | XByteField _ _ => field_fmt "B"
  | XShortField _ _ => field_fmt "H"
  | FieldLenField _ _ _ _ fmt => field_fmt fmt
  | FieldListField _ _ _ _ => field_fmt "H"
  end.

(** [i2count]: [FieldListField] counts the elements of a list, every other
    value and field counts as one. *)
Definition i2count (f : Field) (val : value) : Z :=
  match f, val with
  | FieldListField _ _ _ _, VList l => Z.of_nat (length l)
  | _, _ => 1
  end.

(** [any2i], applied to keyword arguments: [FieldListField] wraps a value
    that is not a list into a one-element list. *)
Definition any2i (f : Field) (x : value) : value :=
  match f, x with
  | FieldListField _ _ _ _, VList l => VList l
  | FieldListField _ _ _ _, x => VList [x]
  | _, x => x
  end.

(** *** Packets *)

Record PacketClass := {
  name : string;
  fields_desc : list Field;
}.

Record Packet := {
  class : PacketClass;
  fields : gmap string value;
  payload : list Z;                     (* bytes left to the [Raw] layer *)
  raw_packet_cache : option (list Z);
}.

Definition get_field (pkt : Packet) (fname : string) : option Field :=
  List.find (λ f, bool_decide (fld_name f = fname)) (fields_desc (class pkt)).

(** [getfieldval]: the packet's own [fields] first, then the class default.
    (A name the class does not declare is an [AttributeError] in scapy; no
    class of the module refers to such a name, and the model answers
    [VNone].) *)
Definition getfieldval (pkt : Packet) (fname : string) : value :=
  match fields pkt !! fname with
  | Some v => v
  | None =>
      match get_field pkt fname with
      | Some f => fld_default f
      | None => VNone
      end
  end.

(** [i2m]: internal to machine value.  [Field.i2m] turns [None] into [0];
    [FieldLenField.i2m] turns [None] into the adjusted count of the field
    named by [count_of], and passes any other value through unchanged;
    [FieldListField.i2m] turns [None] into [[]]. *)
Definition i2m (f : Field) (pkt : Packet) (x : value) : result value :=
  match f, x with
  | FieldLenField _ _ count_of adjust _, VNone =>
      match get_field pkt count_of with
      | Some fld =>
          Ok (VInt (adjust (getfieldval pkt)
                      (i2count fld (getfieldval pkt count_of))))
      | None => Raise AttributeError
      end
  | FieldListField _ _ _ _, VNone => Ok (VList [])
  | _, VNone => Ok (VInt 0)
  | _, _ => Ok x
  end.

Definition pack_value (fmt : string) (m : value) : result (list Z) :=
  match m with
  | VInt n => struct_pack fmt n
  | _ => Raise struct_error
  end.

(** [addfield(pkt, s, val)]: [s + struct.pack(fmt, i2m(val))]; for a
    [FieldListField], the inner field's [addfield] once per element. *)
Fixpoint addfield (f : Field) (pkt : Packet) (s : list Z) (val : value)
  : result (list Z) :=
  match f with
  | FieldListField _ field _ _ =>
      m ← i2m f pkt val;
      match m with
      | VList l => for_each (addfield field pkt) s l
      | _ => Raise TypeError
      end
  | _ =>
      m ← i2m f pkt val;
      b ← pack_value (fld_fmt f) m;
      Ok (s ++ b)
  end.

(** The loop of [FieldListField.getfield]:
    [while s: if c <= 0: break; c -= 1; s, v = field.getfield(pkt, s)].
    [rounds] bounds the number of iterations; the loop also stops, without
    an error, as soon as the buffer is empty. *)
Fixpoint getfield_loop (body : list Z → result (list Z * value))
    (rounds : nat) (s : list Z) : result (list Z * list value) :=
  match rounds with
  | O => Ok (s, [])
  | S rounds =>
      match s with
      | [] => Ok (s, [])
      | _ =>
          '(s', v) ← body s;
          '(s'', vs) ← getfield_loop body rounds s';
          Ok (s'', v :: vs)
      end
  end.

(** [getfield(pkt, s)]: [s[sz:], struct.unpack(fmt, s[:sz])[0]]; for a
    [FieldListField], the loop above, run [count_from(pkt)] times (with a
    [None] count it runs until the buffer is empty, which takes at most
    [len(s)] rounds of a field that consumes bytes). *)
Fixpoint getfield (f : Field) (pkt : Packet) (s : list Z)
  : result (list Z * value) :=
  match f with
  | FieldListField _ field _ count_from =>
      rounds ← match count_from (getfieldval pkt) with
               | VInt c => Ok (Z.to_nat c)
               | VNone => Ok (length s)
               | VList _ =>
                   match s with [] => Ok O | _ => Raise TypeError end
               end;
      '(s', vs) ← getfield_loop (getfield field pkt) rounds s;
      Ok (s', VList vs)
  | _ =>
      let sz := struct_size (fld_fmt f) in
      n ← struct_unpack (fld_fmt f) (take sz s);
      Ok (drop sz s, VInt n)
  end.

Definition set_field (pkt : Packet) (fname : string) (v : value) : Packet :=
  {| class := class pkt; fields := <[fname := v]> (fields pkt);
     payload := payload pkt; raw_packet_cache := raw_packet_cache pkt |}.

(** [do_dissect]: every field of [fields_desc] in order, each one reading
    from what the previous one left and stored under its name before the
    next one runs; the bytes consumed are kept as [raw_packet_cache]. *)
Fixpoint dissect_fields (fds : list Field) (pkt : Packet) (s : list Z)
  : result (Packet * list Z) :=
  match fds with
  | [] => Ok (pkt, s)
  | f :: fds =>
      '(s', fval) ← getfield f pkt s;
      dissect_fields fds (set_field pkt (fld_name f) fval) s'
  end.

Definition do_dissect (pkt : Packet) (s : list Z) : result (Packet * list Z) :=
  '(pkt', s') ← dissect_fields (fields_desc (class pkt)) pkt s;
  Ok ({| class := class pkt'; fields := fields pkt'; payload := payload pkt';
         raw_packet_cache := Some (take (length s - length s') s) |}, s').

(** [dissect]: [do_dissect], then whatever is left becomes the payload (a
    [Raw] layer holding those bytes). *)
Definition dissect (pkt : Packet) (s : list Z) : result Packet :=
  '(pkt', s') ← do_dissect pkt s;
  Ok {| class := class pkt'; fields := fields pkt'; payload := s';
        raw_packet_cache := raw_packet_cache pkt' |}.

(** A packet of class [cls] before any byte or keyword argument has been
    looked at. *)
Definition empty_packet (cls : PacketClass) : Packet :=
  {| class := cls; fields := ∅; payload := []; raw_packet_cache := None |}.

(** [Packet.__init__(_pkt, **fields)]: a non-empty [_pkt] is dissected (an
    empty one is not looked at), then the keyword arguments are stored, in
    declaration order, through [any2i]; a keyword that names no field is an
    [AttributeError]. *)
Definition new (cls : PacketClass) (_pkt : list Z) (kwargs : gmap string value)
  : result Packet :=
  pkt ← match _pkt with
        | [] => Ok (empty_packet cls)
        | _ => dissect (empty_packet cls) _pkt
        end;
  if bool_decide (dom kwargs ⊆ list_to_set (fld_name <$> fields_desc cls))
  then
    Ok (foldl (λ pkt f,
               match kwargs !! fld_name f with
               | Some v => set_field pkt (fld_name f) (any2i f v)
               | None => pkt
               end) pkt (fields_desc cls))
  else Raise AttributeError.

(** [self_build]: the cached bytes of a dissected packet if there are any,
    else every field's [addfield] in order, starting from [b""]. *)
Definition build_fields (pkt : Packet) : result (list Z) :=
  for_each (λ p f, addfield f pkt p (getfieldval pkt (fld_name f)))
    [] (fields_desc (class pkt)).

Definition self_build (pkt : Packet) : result (list Z) :=
  match raw_packet_cache pkt with
  | Some cache => Ok cache
  | None => build_fields pkt
  end.

(** [bytes(pkt)]: the packet's own bytes followed by its payload's. *)
Definition build (pkt : Packet) : result (list Z) :=
  p ← self_build pkt;
  Ok (p ++ payload pkt).

(** [setfieldval], i.e. [pkt.<name> = val]: stores the value and drops the
    cache. *)
Definition setfieldval (pkt : Packet) (fname : string) (val : value)
  : Packet :=
  {| class := class pkt;
     fields :=
       <[fname := match get_field pkt fname with
                  | Some f => any2i f val
                  | None => val
                  end]> (fields pkt);
     payload := payload pkt; raw_packet_cache := None |}.

(** [Packet.__eq__]: same class, the same [getfieldval] for every field of
    the class, and equal payloads.  The cache takes no part. *)
Definition packet_eq (a b : Packet) : Prop :=
  class a = class b
  ∧ (∀ f, f ∈ fields_desc (class a) →
          getfieldval a (fld_name f) = getfieldval b (fld_name f))
  ∧ payload a = payload b.

(** ** The message classes *)

(** [REQUEST_CODES[name]] used as a field default. *)
Definition code_default (table : gmap string code_entry) (key : string)
  : value :=
  match table !! key with
  | Some (Code b) => VInt b
  | Some (CodeList bs) => VList (VInt <$> bs)
  | None => VNone
  end.

Definition SPDMGetVersionMessage : PacketClass :=
  let name := "GET_VERSION" in
  {| name := name;
     fields_desc :=
       [ XByteField "SPDMVersion" (VInt 0x1);
         XByteField "RequestResponseCode" (code_default REQUEST_CODES name);
         XByteField "Param1" (VInt 0x00);
         XByteField "Param2" (VInt 0x00) ] |}.

Definition SPDMVersionMessage : PacketClass :=
  let name := "VERSION" in
  {| name := name;
     fields_desc :=
       [ XByteField "SPDMVersion" (VInt 0x10);
         XByteField "RequestResponseCode" (code_default RESPONSE_CODES name);
         XByteField "Param1" VNone;
         XByteField "Param2" VNone;
         XByteField "Reserved" VNone;
         FieldLenField "VersionNumberEntryCount" VNone
           "VersionNumberEntry" (λ pkt x, x) "B";
         FieldListField "VersionNumberEntry"
           (XShortField "Version" VNone) (* LE *)
           VNone
           (λ pkt, pkt "VersionNumberEntryCount") ] |}.

(** The six classes whose body is [pass]: scapy gives them the class name as
    [name] and an empty [fields_desc]. *)
Definition SPDMGetCapabilitiesMessage : PacketClass :=
  {| name := "SPDMGetCapabilitiesMessage"; fields_desc := [] |}.
Definition SPDMCapabilitiesMessage : PacketClass :=
  {| name := "SPDMCapabilitiesMessage"; fields_desc := [] |}.
Definition SPDMNegotiateAlgorithmsMessage : PacketClass :=
  {| name := "SPDMNegotiateAlgorithmsMessage"; fields_desc := [] |}.
Definition SPDMAlgorithmsMessage : PacketClass :=
  {| name := "SPDMAlgorithmsMessage"; fields_desc := [] |}.
Definition SPDMGetDigestsMessage : PacketClass :=
  {| name := "SPDMGetDigestsMessage"; fields_desc := [] |}.
Definition SPDMDigestsMessage : PacketClass :=
  {| name := "SPDMDigestsMessage"; fields_desc := [] |}.

Definition message_classes : list PacketClass :=
  [ SPDMGetVersionMessage; SPDMVersionMessage;
    SPDMGetCapabilitiesMessage; SPDMCapabilitiesMessage;
    SPDMNegotiateAlgorithmsMessage; SPDMAlgorithmsMessage;
    SPDMGetDigestsMessage; SPDMDigestsMessage ].

(** ** Vocabulary for the statements about the VERSION layout *)

(** The two bytes [struct.pack("!H", e)] produces: high byte first. *)
Definition be16 (e : Z) : list Z := [e `div` 256; e `mod` 256].

(** The two bytes a little-endian entry would have: low byte first. *)
Definition le16 (e : Z) : list Z := [e `mod` 256; e `div` 256].

(** A field value that packs into one byte: an integer in range, or [None]
    (which [i2m] resolves before packing). *)
Definition byte_value (v : value) : Prop :=
  match v with
  | VNone => True
  | VInt n => 0 ≤ n < 256
  | VList _ => False
  end.

(** The byte a plain byte field emits for such a value. *)
Definition byte_of (v : value) : Z :=
  match v with
  | VInt n => n
  | _ => 0
  end.

(** The packet [do_dissect] has built once the six leading bytes of a
    VERSION buffer are read, each stored under its field's name. *)
Definition dissected_header (ver code p1 p2 r cnt : Z) : Packet :=
  foldl (λ pkt kv, set_field pkt kv.1 (VInt kv.2))
    (empty_packet SPDMVersionMessage)
    [ ("SPDMVersion", ver); ("RequestResponseCode", code); ("Param1", p1);
      ("Param2", p2); ("Reserved", r); ("VersionNumberEntryCount", cnt) ].

(** Field [fname] of [m] holds a byte. *)
Definition holds_byte (m : Packet) (fname : string) : Prop :=
  ∃ n, getfieldval m fname = VInt n ∧ 0 ≤ n < 256.

(** A well-formed VERSION message carrying the entries [es]: a packet of
    the class that was built by a caller (so it has no dissection cache and
    no payload), whose five plain byte fields each hold a byte, whose
    entries are 16-bit values and whose count field holds their number. *)
Definition well_formed_version (m : Packet) (es : list Z) : Prop :=
  class m = SPDMVersionMessage
  ∧ raw_packet_cache m = None
  ∧ payload m = []
  ∧ Forall (holds_byte m)
      ["SPDMVersion"; "RequestResponseCode"; "Param1"; "Param2"; "Reserved"]
  ∧ getfieldval m "VersionNumberEntry" = VList (VInt <$> es)
  ∧ Forall (λ e, 0 ≤ e < 65536) es
  ∧ (length es < 256)%nat
  ∧ getfieldval m "VersionNumberEntryCount" = VInt (Z.of_nat (length es)).

(** The [pass] classes. *)
Definition placeholder_classes : list PacketClass :=
  [ SPDMGetCapabilitiesMessage; SPDMCapabilitiesMessage;
    SPDMNegotiateAlgorithmsMessage; SPDMAlgorithmsMessage;
    SPDMGetDigestsMessage; SPDMDigestsMessage ].

(** Keyword arguments of the debugging run's last packet, with the count
    left to the caller. *)
Definition version_kwargs (count : value) (entries : list Z)
  : gmap string value :=
  list_to_map [ ("VersionNumberEntryCount", count);
                ("VersionNumberEntry", VList (VInt <$> entries)) ].

(** The packet [Packet.__init__] makes from keyword arguments alone, when
    they name fields of the class and list fields are given lists: the
    arguments are its [fields]. *)
Definition kwargs_packet (cls : PacketClass) (kwargs : gmap string value)
  : Packet :=
  {| class := cls; fields := kwargs; payload := [];
     raw_packet_cache := None |}.

(** A VERSION message with every field given. *)
Definition sample_version_message : Packet :=
  kwargs_packet SPDMVersionMessage
    (list_to_map
       [ ("SPDMVersion", VInt 0x10); ("RequestResponseCode", VInt 0x04);
         ("Param1", VInt 0x00); ("Param2", VInt 0x00);
         ("Reserved", VInt 0x00); ("VersionNumberEntryCount", VInt 0x02);
         ("VersionNumberEntry", VList [VInt 0x1000; VInt 0x1200]) ]).

(** ** The module's debugging run, replayed *)

Definition byte_string : list Z :=
  [0x10; 0x04; 0x00; 0x00; 0x00; 0x02; 0x10; 0x00; 0x12; 0x00].

Example main_get_version_bytes :
  (new SPDMGetVersionMessage [] ∅ ≫= build) = Ok [0x01; 0x84; 0x00; 0x00].
Proof. vm_compute. reflexivity. Qed.

Example main_version_assert :
  (new SPDMVersionMessage byte_string ∅ ≫= build) = Ok byte_string.
Proof. vm_compute. reflexivity. Qed.

Example main_version_entries :
  (λ pkt, getfieldval pkt "VersionNumberEntry")
    <$> (match new SPDMVersionMessage byte_string ∅ with
         | Ok p => Some p | Raise _ => None end)
  = Some (VList [VInt 0x1000; VInt 0x1200]).
Proof. vm_compute. reflexivity. Qed.

Example main_version_kwargs :
  (new SPDMVersionMessage []
     (list_to_map [("VersionNumberEntryCount", VInt 0x02);
                   ("VersionNumberEntry",
                    VList [VInt 0x1000; VInt 0x1200])]) ≫= build)
  = Ok byte_string.
Proof. vm_compute. reflexivity. Qed.

(** ** Facts about the code tables and the version field *)

(** Checking a decidable property on a stretch of integers by running it on
    each of them. *)
Lemma seqZ_forall (P : Z → Prop) `{!∀ v, Decision (P v)} (lo len : Z) :
  bool_decide (Forall P (seqZ lo len)) = true →
  ∀ v, lo ≤ v < lo + len → P v.
Proof.
  intros HP v Hv. apply bool_decide_eq_true in HP.
  rewrite Forall_forall in HP. apply HP, elem_of_seqZ. lia.
Qed.

Lemma code_set_own_half d c b : b ∈ code_set d c → own_half d b.
Proof.
  revert b. apply Forall_forall.
  destruct d, c; apply (bool_decide_eq_true_1 _); vm_compute; reflexivity.
Qed.

(** C8: the two version accessors are total, mask the high and the low
    nibble, and give the documented values at 0x10 and 0x12. *)
Theorem C8_version_nibbles (v : Z) :
  0 ≤ v < 256 →
  SPDMUtil.spdm_major_version v = Z.land v 0xF0
  ∧ SPDMUtil.spdm_minor_version v = Z.land v 0x0F
  ∧ SPDMUtil.spdm_major_version v = 16 * (v `div` 16)
  ∧ SPDMUtil.spdm_minor_version v = v `mod` 16
  ∧ 0 ≤ SPDMUtil.spdm_major_version v < 256
  ∧ 0 ≤ SPDMUtil.spdm_minor_version v < 16
  ∧ SPDMUtil.spdm_major_version 0x10 = 0x10
  ∧ SPDMUtil.spdm_minor_version 0x10 = 0x00
  ∧ SPDMUtil.spdm_major_version 0x12 = 0x10
  ∧ SPDMUtil.spdm_minor_version 0x12 = 0x02.
Proof.
  intros Hv. split; [reflexivity|]. split; [reflexivity|].
  assert (Hmin : SPDMUtil.spdm_minor_version v = v `mod` 16).
  { unfold SPDMUtil.spdm_minor_version.
    change 0x0F with (Z.ones 4). by rewrite Z.land_ones. }
  assert (Hmaj : SPDMUtil.spdm_major_version v = 16 * (v `div` 16)).
  { clear Hmin. revert v Hv.
    apply (seqZ_forall _ 0 256). vm_compute. reflexivity. }
  pose proof (Z.mod_pos_bound v 16 ltac:(lia)).
  pose proof (Z.div_mod v 16 ltac:(lia)).
  rewrite Hmaj, Hmin. repeat split; try lia; reflexivity.
Qed.

Lemma C8_version_nibbles_witness :
  SPDMUtil.spdm_major_version 0x12 = 16 * (0x12 `div` 16)
  ∧ SPDMUtil.spdm_minor_version 0x12 = 0x12 `mod` 16.
Proof.
  destruct (C8_version_nibbles 0x12 ltac:(lia)) as (_ & _ & H1 & H2 & _).
  split; [exact H1 | exact H2].
Defined.

(** The entries of a table given as a literal, read back from the map. *)
Lemma request_codes_inverse :
  map_Forall (λ n e, match e with
                     | Code b => INVERSE_REQUEST_CODES !! b = Some n
                     | CodeList _ => True
                     end) REQUEST_CODES
  ∧ map_Forall (λ b n, REQUEST_CODES !! n = Some (Code b))
      INVERSE_REQUEST_CODES.
Proof.
  split; apply map_Forall_to_list, Forall_forall;
    intros [k x] Hin; vm_compute in Hin;
    repeat (apply elem_of_cons in Hin as [Hin|Hin];
            [inversion Hin; subst; vm_compute; reflexivity|]);
    by apply elem_of_nil in Hin.
Qed.

Lemma response_codes_inverse :
  map_Forall (λ n e, match e with
                     | Code b => INVERSE_RESPONSE_CODES !! b = Some n
                     | CodeList _ => True
                     end) RESPONSE_CODES
  ∧ map_Forall (λ b n, RESPONSE_CODES !! n = Some (Code b))
      INVERSE_RESPONSE_CODES.
Proof.
  split; apply map_Forall_to_list, Forall_forall;
    intros [k x] Hin; vm_compute in Hin;
    repeat (apply elem_of_cons in Hin as [Hin|Hin];
            [inversion Hin; subst; vm_compute; reflexivity|]);
    by apply elem_of_nil in Hin.
Qed.

(** C9: in each direction the name-to-code and code-to-name tables are
    inverse to each other on the assigned codes: looking a name's byte up
    in the inverse table gives the name back, and looking a byte's name up
    gives the byte back. *)
Theorem C9_tables_inverse (d : direction) (n : string) (b : Z) :
  (nameToCode d n = Some (Code b) → codeToName d b = Some n)
  ∧ (codeToName d b = Some n → nameToCode d n = Some (Code b)).
Proof.
  destruct d; simpl.
  - destruct request_codes_inverse as [H1 H2].
    split; intros H; [apply (H1 _ _ H) | apply (H2 _ _ H)].
  - destruct response_codes_inverse as [H1 H2].
    split; intros H; [apply (H1 _ _ H) | apply (H2 _ _ H)].
Qed.

Lemma C9_tables_inverse_witness :
  codeToName Request 0x84 = Some "GET_VERSION"
  ∧ nameToCode Response "VERSION" = Some (Code 0x04).
Proof.
  split.
  - apply (proj1 (C9_tables_inverse Request "GET_VERSION" 0x84)).
    vm_compute. reflexivity.
  - apply (proj2 (C9_tables_inverse Response "VERSION" 0x04)).
    vm_compute. reflexivity.
Defined.

(** C10: the list under the ["Reserved"] key of each name table and the
    stand-alone reserved list of the same direction are the same list,
    element for element. *)
Theorem C10_reserved_lists_agree :
  ∃ req resp : list Z,
    REQUEST_CODES !! "Reserved" = Some (CodeList req)
    ∧ RESPONSE_CODES !! "Reserved" = Some (CodeList resp)
    ∧ req = RESERVED_REQUEST_CODES
    ∧ resp = RESERVED_RESPONSE_CODES
    ∧ (∀ i : nat, req !! i = RESERVED_REQUEST_CODES !! i)
    ∧ (∀ i : nat, resp !! i = RESERVED_RESPONSE_CODES !! i).
Proof.
  eexists _, _. split; [vm_compute; reflexivity|].
  split; [vm_compute; reflexivity|].
  split; [|split]; [| |split; intros i]; vm_compute; reflexivity.
Qed.

Lemma own_half_range d b :
  own_half d b →
  match d with Request => 0x80 | Response => 0x00 end ≤ b
  < match d with Request => 0x80 | Response => 0x00 end + 0x80.
Proof. destruct d; simpl; lia. Qed.

(** C2, as stated, fails: byte 0x00 has no classification at all as a
    request code, so the three request sets do not cover the byte range. *)
Lemma C2_counterexample :
  0 ≤ 0x00 < 256
  ∧ classifications Request 0x00 = []
  ∧ ¬ (∀ d b, 0 ≤ b < 256 → length (classifications d b) = 1%nat).
Proof.
  split; [lia|]. split; [vm_compute; reflexivity|].
  intros H. specialize (H Request 0x00 ltac:(lia)). vm_compute in H.
  discriminate.
Qed.

(** C2, amended: in each direction the Required, Optional and Reserved sets
    are pairwise disjoint; a byte of the direction's own half (0x80-0xFF for
    requests, 0x00-0x7F for responses) has exactly one classification,
    the bytes of [unmentioned_codes] being left aside; and a byte outside
    that half has none. *)
Theorem C2_classification (d : direction) (b : Z) :
  (∀ c1 c2, b ∈ code_set d c1 → b ∈ code_set d c2 → c1 = c2)
  ∧ (own_half d b → b ∉ unmentioned_codes d →
     length (classifications d b) = 1%nat)
  ∧ (¬ own_half d b → classifications d b = []).
Proof.
  split; [|split].
  - intros c1 c2 H1 H2.
    pose proof (own_half_range d b (code_set_own_half _ _ _ H1)) as Hb.
    revert c1 c2 H1 H2.
    assert (Forall (λ c1, Forall (λ c2,
              b ∈ code_set d c1 → b ∈ code_set d c2 → c1 = c2)
              [Required; Optional; Reserved])
              [Required; Optional; Reserved]) as HF.
    { revert b Hb. destruct d;
        apply (seqZ_forall _ _ 0x80); vm_compute; reflexivity. }
    intros c1 c2. rewrite Forall_forall in HF.
    assert (∀ c, c ∈ [Required; Optional; Reserved]) as Hall
      by (intros []; repeat constructor).
    specialize (HF c1 (Hall c1)). rewrite Forall_forall in HF.
    exact (HF c2 (Hall c2)).
  - intros Hb. apply own_half_range in Hb. revert b Hb.
    destruct d;
      refine (seqZ_forall
                (λ b, b ∉ unmentioned_codes _ →
                      length (classifications _ b) = 1%nat) _ 0x80 _);
      vm_compute; reflexivity.
  - intros Hb. unfold classifications.
    rewrite !filter_cons, filter_nil.
    repeat case_decide; try reflexivity;
      exfalso; eauto using code_set_own_half.
Qed.

Lemma C2_classification_witness :
  length (classifications Request 0x84) = 1%nat
  ∧ length (classifications Response 0x62) = 1%nat
  ∧ classifications Response 0x84 = [].
Proof.
  split; [|split].
  - apply (C2_classification Request 0x84); [simpl; lia|].
    apply (bool_decide_eq_true_1 _). reflexivity.
  - apply (C2_classification Response 0x62); [simpl; lia|].
    apply (bool_decide_eq_true_1 _). reflexivity.
  - apply (C2_classification Response 0x84). simpl. lia.
Defined.

(** ** [struct] at the two formats the classes use *)

Lemma struct_pack_B v : 0 ≤ v < 256 → struct_pack "!B" v = Ok [v].
Proof.
  intros Hv. unfold struct_pack.
  change (struct_parse "!B") with (Some (big_endian, 1%nat)).
  cbv beta iota.
  rewrite bool_decide_eq_true_2 by (change (256 ^ Z.of_nat 1) with 256; lia).
  unfold le_bytes, reverse; simpl rev_append.
  by rewrite Z.mod_small.
Qed.

Lemma struct_pack_H v : 0 ≤ v < 65536 → struct_pack "!H" v = Ok (be16 v).
Proof.
  intros Hv. unfold struct_pack.
  change (struct_parse "!H") with (Some (big_endian, 2%nat)).
  cbv beta iota.
  rewrite bool_decide_eq_true_2 by (change (256 ^ Z.of_nat 2) with 65536; lia).
  unfold le_bytes, reverse, be16; simpl rev_append.
  rewrite (Z.mod_small (v `div` 256)); [done|].
  split; [apply Z.div_pos; lia | apply Z.div_lt_upper_bound; lia].
Qed.

Lemma struct_unpack_B x : struct_unpack "!B" [x] = Ok x.
Proof.
  unfold struct_unpack.
  change (struct_parse "!B") with (Some (big_endian, 1%nat)).
  simpl. f_equal. lia.
Qed.

Lemma struct_unpack_H hi lo : struct_unpack "!H" [hi; lo] = Ok (hi * 256 + lo).
Proof.
  unfold struct_unpack.
  change (struct_parse "!H") with (Some (big_endian, 2%nat)).
  simpl. f_equal. lia.
Qed.
(** ** Single fields *)

Lemma struct_size_B : struct_size "!B" = 1%nat.
Proof. reflexivity. Qed.

Lemma struct_size_H : struct_size "!H" = 2%nat.
Proof. reflexivity. Qed.

Lemma addfield_XByteField fname d pkt s v :
  byte_value v →
  addfield (XByteField fname d) pkt s v = Ok (s ++ [byte_of v]).
Proof.
  intros Hv. unfold addfield, fld_fmt.
  change (field_fmt "B") with "!B".
  destruct v as [|n|l]; simpl in Hv; [| |done]; simpl i2m; simpl mbind.
  - reflexivity.
  - rewrite struct_pack_B by lia. reflexivity.
Qed.

Lemma addfield_XShortField fname d pkt s e :
  0 ≤ e < 65536 →
  addfield (XShortField fname d) pkt s (VInt e) = Ok (s ++ be16 e).
Proof.
  intros He. unfold addfield, fld_fmt.
  change (field_fmt "H") with "!H".
  simpl i2m; simpl mbind.
  rewrite struct_pack_H by lia. reflexivity.
Qed.

Lemma getfield_XByteField fname d pkt x s :
  getfield (XByteField fname d) pkt (x :: s) = Ok (s, VInt x).
Proof.
  unfold getfield, fld_fmt. change (field_fmt "B") with "!B".
  rewrite struct_size_B. simpl take. simpl drop.
  rewrite struct_unpack_B. reflexivity.
Qed.

Lemma getfield_XByteField_empty fname d pkt :
  getfield (XByteField fname d) pkt [] = Raise struct_error.
Proof. reflexivity. Qed.

Lemma getfield_FieldLenField_B fname d count_of adjust pkt x s :
  getfield (FieldLenField fname d count_of adjust "B") pkt (x :: s)
  = Ok (s, VInt x).
Proof.
  unfold getfield, fld_fmt. change (field_fmt "B") with "!B".
  rewrite struct_size_B. simpl take. simpl drop.
  rewrite struct_unpack_B. reflexivity.
Qed.

Lemma getfield_FieldLenField_B_empty fname d count_of adjust pkt :
  getfield (FieldLenField fname d count_of adjust "B") pkt []
  = Raise struct_error.
Proof. reflexivity. Qed.

Lemma getfield_XShortField fname d pkt hi lo s :
  getfield (XShortField fname d) pkt (hi :: lo :: s)
  = Ok (s, VInt (hi * 256 + lo)).
Proof.
  unfold getfield, fld_fmt. change (field_fmt "H") with "!H".
  rewrite struct_size_H. simpl take. simpl drop.
  rewrite struct_unpack_H. reflexivity.
Qed.

Lemma getfield_XShortField_short fname d pkt x :
  getfield (XShortField fname d) pkt [x] = Raise struct_error.
Proof. reflexivity. Qed.
(** ** The entry loop of the VERSION layout *)

Section entry_loop.
Variables (fname : string) (d : value) (pkt : Packet).

Let loop := getfield_loop (getfield (XShortField fname d) pkt).

Lemma entry_loop_nil n : loop n [] = Ok ([], []).
Proof. by destruct n. Qed.

Lemma entry_loop_odd n x : loop (S n) [x] = Raise struct_error.
Proof. reflexivity. Qed.

Lemma entry_loop_cons n hi lo s :
  loop (S n) (hi :: lo :: s)
  = '(s', vs) ← loop n s; Ok (s', VInt (hi * 256 + lo) :: vs).
Proof.
  unfold loop. cbn [getfield_loop].
  rewrite getfield_XShortField. reflexivity.
Qed.

Lemma be16_value e : 0 ≤ e < 65536 → e `div` 256 * 256 + e `mod` 256 = e.
Proof. intros _. pose proof (Z.div_mod e 256). lia. Qed.

Lemma be16_bytes hi lo :
  0 ≤ hi < 256 → 0 ≤ lo < 256 → be16 (hi * 256 + lo) = [hi; lo].
Proof.
  intros Hhi Hlo. unfold be16.
  rewrite Z.div_add_l, Z.div_small, Z.add_0_r by lia.
  rewrite Z.add_comm, Z.mod_add, Z.mod_small by lia. reflexivity.
Qed.

(** Reading back what [addfield] wrote: as many rounds as entries give the
    entries and leave what follows them. *)
Lemma entry_loop_build es rest :
  Forall (λ e, 0 ≤ e < 65536) es →
  loop (length es) (flat_map be16 es ++ rest) = Ok (rest, VInt <$> es).
Proof.
  induction 1 as [|e es He _ IH]; [reflexivity|].
  cbn [length flat_map be16 app]. rewrite entry_loop_cons, IH.
  cbn. by rewrite be16_value.
Qed.

(** What an accepted buffer looked like. *)
Lemma entry_loop_inv n s s' vs :
  Forall (λ x, 0 ≤ x < 256) s →
  loop n s = Ok (s', vs) →
  ∃ es, vs = VInt <$> es ∧ s = flat_map be16 es ++ s'
        ∧ Forall (λ e, 0 ≤ e < 65536) es ∧ (length es ≤ n)%nat.
Proof.
  revert s s' vs. induction n as [|n IH]; intros s s' vs Hs Hl.
  { injection Hl as <- <-. by exists []. }
  destruct s as [|hi [|lo s]].
  - injection Hl as <- <-. exists []. repeat split; [constructor | simpl; lia].
  - discriminate.
  - rewrite entry_loop_cons in Hl.
    destruct (loop n s) as [[s1 vs1]|] eqn:Hn; [|discriminate].
    injection Hl as <- <-.
    apply Forall_cons in Hs as [Hhi Hs]. apply Forall_cons in Hs as [Hlo Hs].
    destruct (IH _ _ _ Hs Hn) as (es & -> & -> & Hes & Hlen).
    exists (hi * 256 + lo :: es). repeat split.
    + cbn [flat_map]. by rewrite be16_bytes.
    + constructor; [nia | done].
    + simpl; lia.
Qed.

(** Enough bytes for all rounds: exactly [n] entries are read. *)
Lemma entry_loop_enough n s :
  (2 * n ≤ length s)%nat →
  ∃ vs, loop n s = Ok (drop (2 * n) s, vs) ∧ length vs = n.
Proof.
  revert s. induction n as [|n IH]; intros s Hs.
  { by exists []. }
  destruct s as [|hi [|lo s]]; [simpl in Hs; lia.. |].
  destruct (IH s ltac:(simpl in Hs; lia)) as (vs & Hl & Hlen).
  exists (VInt (hi * 256 + lo) :: vs).
  rewrite entry_loop_cons, Hl. split; [|simpl; lia].
  replace (2 * S n)%nat with (S (S (2 * n))) by lia. reflexivity.
Qed.

(** Fewer bytes than the rounds need, but an even number of them: the loop
    stops without an error, with as many entries as there were pairs. *)
Lemma entry_loop_short_even n s k :
  length s = (2 * k)%nat → (k < n)%nat →
  ∃ vs, loop n s = Ok ([], vs) ∧ length vs = k.
Proof.
  revert s k. induction n as [|n IH]; intros s k Hs Hk; [lia|].
  destruct s as [|hi [|lo s]].
  - exists []. split; [reflexivity | simpl in *; lia].
  - simpl in Hs. lia.
  - destruct k as [|k]; [simpl in Hs; lia|].
    destruct (IH s k ltac:(simpl in Hs; lia) ltac:(lia)) as (vs & Hl & Hlen).
    exists (VInt (hi * 256 + lo) :: vs).
    rewrite entry_loop_cons, Hl. split; [reflexivity | simpl; lia].
Qed.

(** Fewer bytes than the rounds need and an odd number of them: the last
    round meets a single byte and [struct.unpack] raises. *)
Lemma entry_loop_short_odd n s k :
  length s = S (2 * k) → (k < n)%nat →
  loop n s = Raise struct_error.
Proof.
  revert s k. induction n as [|n IH]; intros s k Hs Hk; [lia|].
  destruct s as [|hi [|lo s]].
  - simpl in Hs. lia.
  - reflexivity.
  - destruct k as [|k]; [simpl in Hs; lia|].
    rewrite entry_loop_cons, (IH s k); [reflexivity | simpl in Hs; lia | lia].
Qed.
End entry_loop.
(** ** Packets *)

Lemma bind_Ok {A B} (a : A) (f : A → result B) : (Ok a ≫= f) = f a.
Proof. reflexivity. Qed.

Lemma getfieldval_set_field pkt k v : getfieldval (set_field pkt k v) k = v.
Proof. unfold getfieldval, set_field; simpl. by rewrite lookup_insert_eq. Qed.

Lemma getfieldval_set_field_ne pkt k k' v :
  k ≠ k' → getfieldval (set_field pkt k v) k' = getfieldval pkt k'.
Proof.
  intros Hk. unfold getfieldval, set_field, get_field; simpl.
  by rewrite lookup_insert_ne.
Qed.

Lemma new_no_kwargs cls b :
  new cls b ∅
  = match b with
    | [] => Ok (empty_packet cls)
    | _ => dissect (empty_packet cls) b
    end.
Proof.
  unfold new.
  assert (Hfold : ∀ l pkt,
    foldl (λ pkt f, match (∅ : gmap string value) !! fld_name f with
                    | Some v => set_field pkt (fld_name f) (any2i f v)
                    | None => pkt
                    end) pkt l = pkt).
  { induction l as [|f l IH]; intros pkt; [done|].
    cbn [foldl]. by rewrite lookup_empty, IH. }
  rewrite bool_decide_eq_true_2 by (rewrite dom_empty_L; set_solver).
  destruct b as [|x b]; [by rewrite bind_Ok, Hfold|].
  destruct (dissect _ _) as [pkt|e]; [|done].
  by rewrite bind_Ok, Hfold.
Qed.

Lemma for_each_entries fname d pkt s es :
  Forall (λ e, 0 ≤ e < 65536) es →
  for_each (addfield (XShortField fname d) pkt) s (VInt <$> es)
  = Ok (s ++ flat_map be16 es).
Proof.
  intros Hes. revert s. induction Hes as [|e es He _ IH]; intros s.
  - simpl. by rewrite app_nil_r.
  - cbn [fmap list_fmap for_each flat_map].
    rewrite addfield_XShortField, bind_Ok by done.
    change (for_each ?f ?s (list_fmap _ _ ?g es)) with (for_each f s (g <$> es)).
    by rewrite IH, <- app_assoc.
Qed.
(** ** Building a VERSION packet from its fields *)

Lemma addfield_FieldListField fname field d count_from pkt s l :
  addfield (FieldListField fname field d count_from) pkt s (VList l)
  = for_each (addfield field pkt) s l.
Proof. reflexivity. Qed.

Section build_version.
Variable pkt : Packet.
Hypothesis Hclass : class pkt = SPDMVersionMessage.

Lemma get_field_entries :
  get_field pkt "VersionNumberEntry"
  = Some (FieldListField "VersionNumberEntry"
            (XShortField "Version" VNone) VNone
            (λ pkt, pkt "VersionNumberEntryCount")).
Proof. unfold get_field. rewrite Hclass. reflexivity. Qed.

(** The count byte: the caller's value when there is one, the number of
    entries when the field is [None]. *)
Lemma addfield_count s es cnt :
  getfieldval pkt "VersionNumberEntry" = VList (VInt <$> es) →
  match cnt with
  | VNone => (length es < 256)%nat
  | VInt c => 0 ≤ c < 256
  | VList _ => False
  end →
  addfield (FieldLenField "VersionNumberEntryCount" VNone
              "VersionNumberEntry" (λ pkt x, x) "B") pkt s cnt
  = Ok (s ++ [match cnt with
              | VInt c => c
              | _ => Z.of_nat (length es)
              end]).
Proof.
  intros Hes Hcnt. unfold addfield, fld_fmt.
  change (field_fmt "B") with "!B".
  destruct cnt as [|c|l]; [| |done].
  - unfold i2m. rewrite get_field_entries, Hes, bind_Ok.
    cbn [i2count pack_value]. rewrite length_fmap.
    rewrite struct_pack_B by lia. reflexivity.
  - cbn [i2m]. rewrite bind_Ok. cbn [pack_value].
    rewrite struct_pack_B by lia. reflexivity.
Qed.

Lemma build_fields_version es :
  byte_value (getfieldval pkt "SPDMVersion") →
  byte_value (getfieldval pkt "RequestResponseCode") →
  byte_value (getfieldval pkt "Param1") →
  byte_value (getfieldval pkt "Param2") →
  byte_value (getfieldval pkt "Reserved") →
  match getfieldval pkt "VersionNumberEntryCount" with
  | VNone => (length es < 256)%nat
  | VInt c => 0 ≤ c < 256
  | VList _ => False
  end →
  getfieldval pkt "VersionNumberEntry" = VList (VInt <$> es) →
  Forall (λ e, 0 ≤ e < 65536) es →
  build_fields pkt
  = Ok ([ byte_of (getfieldval pkt "SPDMVersion");
          byte_of (getfieldval pkt "RequestResponseCode");
          byte_of (getfieldval pkt "Param1");
          byte_of (getfieldval pkt "Param2");
          byte_of (getfieldval pkt "Reserved");
          match getfieldval pkt "VersionNumberEntryCount" with
          | VInt c => c
          | _ => Z.of_nat (length es)
          end ] ++ flat_map be16 es).
Proof.
  intros H1 H2 H3 H4 H5 Hcnt Hes Hrange.
  unfold build_fields. rewrite Hclass.
  cbn [fields_desc SPDMVersionMessage for_each fld_name].
  repeat (rewrite addfield_XByteField by done; rewrite bind_Ok).
  rewrite (addfield_count _ es) by done. rewrite bind_Ok.
  rewrite Hes, addfield_FieldListField, for_each_entries by done.
  reflexivity.
Qed.
End build_version.
(** ** Dissecting a VERSION buffer *)

Lemma getfield_FieldListField fname field d count_from pkt s :
  getfield (FieldListField fname field d count_from) pkt s
  = rounds ← match count_from (getfieldval pkt) with
             | VInt c => Ok (Z.to_nat c)
             | VNone => Ok (length s)
             | VList _ => match s with [] => Ok O | _ => Raise TypeError end
             end;
    '(s', vs) ← getfield_loop (getfield field pkt) rounds s;
    Ok (s', VList vs).
Proof. reflexivity. Qed.

Ltac dissect_byte :=
  cbn [dissect_fields fld_name];
  first [ rewrite getfield_XByteField
        | rewrite getfield_FieldLenField_B
        | rewrite getfield_XByteField_empty
        | rewrite getfield_FieldLenField_B_empty ];
  try rewrite bind_Ok; cbv beta iota.

Lemma dissect_fields_version ver code p1 p2 r cnt rest :
  dissect_fields (fields_desc SPDMVersionMessage)
    (empty_packet SPDMVersionMessage)
    (ver :: code :: p1 :: p2 :: r :: cnt :: rest)
  = '(s', vs) ← getfield_loop
                  (getfield (XShortField "Version" VNone)
                     (dissected_header ver code p1 p2 r cnt))
                  (Z.to_nat cnt) rest;
    Ok (set_field (dissected_header ver code p1 p2 r cnt)
          "VersionNumberEntry" (VList vs), s').
Proof.
  cbn [fields_desc SPDMVersionMessage].
  do 6 dissect_byte.
  cbn [dissect_fields fld_name].
  rewrite getfield_FieldListField, getfieldval_set_field, bind_Ok.
  unfold dissected_header. cbn [foldl fst snd].
  destruct (getfield_loop _ _ _) as [[s' vs]|e]; reflexivity.
Qed.

(** A non-empty buffer that ends before the sixth byte: the field that
    finds nothing left to read raises. *)
Lemma dissect_fields_version_short b :
  (0 < length b < 6)%nat →
  dissect_fields (fields_desc SPDMVersionMessage)
    (empty_packet SPDMVersionMessage) b
  = Raise struct_error.
Proof.
  intros Hb. cbn [fields_desc SPDMVersionMessage].
  do 6 (destruct b as [|? b];
        [first [simpl in Hb; lia | repeat dissect_byte; reflexivity] |]).
  simpl in Hb. lia.
Qed.

Lemma new_version ver code p1 p2 r cnt rest :
  let b := ver :: code :: p1 :: p2 :: r :: cnt :: rest in
  new SPDMVersionMessage b ∅
  = '(s', vs) ← getfield_loop
                  (getfield (XShortField "Version" VNone)
                     (dissected_header ver code p1 p2 r cnt))
                  (Z.to_nat cnt) rest;
    Ok {| class := SPDMVersionMessage;
          fields := fields (set_field (dissected_header ver code p1 p2 r cnt)
                              "VersionNumberEntry" (VList vs));
          payload := s';
          raw_packet_cache := Some (take (length b - length s') b) |}.
Proof.
  intros b. rewrite new_no_kwargs. unfold b, dissect, do_dissect.
  change (class (empty_packet SPDMVersionMessage)) with SPDMVersionMessage.
  rewrite dissect_fields_version.
  destruct (getfield_loop _ _ _) as [[s' vs]|e]; reflexivity.
Qed.

Lemma new_version_short b :
  (0 < length b < 6)%nat →
  new SPDMVersionMessage b ∅ = Raise struct_error.
Proof.
  intros Hb. rewrite new_no_kwargs.
  destruct b as [|x b]; [simpl in Hb; lia|].
  unfold dissect, do_dissect.
  change (class (empty_packet SPDMVersionMessage)) with SPDMVersionMessage.
  by rewrite dissect_fields_version_short.
Qed.
(** ** What a dissected VERSION packet holds *)

Lemma getfieldval_record cls F p c p' c' k :
  getfieldval {| class := cls; fields := F; payload := p;
                 raw_packet_cache := c |} k
  = getfieldval {| class := cls; fields := F; payload := p';
                   raw_packet_cache := c' |} k.
Proof. reflexivity. Qed.

Section dissected.
Variables (ver code p1 p2 r cnt : Z) (v : value).

Let P := set_field (dissected_header ver code p1 p2 r cnt)
           "VersionNumberEntry" v.

Lemma dissected_fields :
  getfieldval P "SPDMVersion" = VInt ver
  ∧ getfieldval P "RequestResponseCode" = VInt code
  ∧ getfieldval P "Param1" = VInt p1
  ∧ getfieldval P "Param2" = VInt p2
  ∧ getfieldval P "Reserved" = VInt r
  ∧ getfieldval P "VersionNumberEntryCount" = VInt cnt
  ∧ getfieldval P "VersionNumberEntry" = v.
Proof.
  unfold P, dissected_header. cbn [foldl fst snd].
  repeat split;
    repeat first [ by apply getfieldval_set_field
                 | rewrite getfieldval_set_field_ne by done ].
Qed.
End dissected.
(** ** Round trips of the VERSION layout *)

Lemma holds_byte_value m k : holds_byte m k → byte_value (getfieldval m k).
Proof. intros (n & -> & Hn). exact Hn. Qed.

(** Encoding a well-formed message gives its six header bytes followed by
    its entries, two bytes each. *)
Lemma build_well_formed m es :
  well_formed_version m es →
  build m
  = Ok ([ byte_of (getfieldval m "SPDMVersion");
          byte_of (getfieldval m "RequestResponseCode");
          byte_of (getfieldval m "Param1");
          byte_of (getfieldval m "Param2");
          byte_of (getfieldval m "Reserved");
          Z.of_nat (length es) ] ++ flat_map be16 es).
Proof.
  intros (Hcls & Hcache & Hpay & Hbytes & Hes & Hrange & Hlen & Hcnt).
  unfold build, self_build. rewrite Hcache, Hpay.
  repeat (apply Forall_cons in Hbytes as [?%holds_byte_value Hbytes]).
  rewrite (build_fields_version m Hcls es); try done.
  - rewrite bind_Ok, Hcnt, app_nil_r. reflexivity.
  - rewrite Hcnt. lia.
Qed.

Lemma decode_encode_version m es :
  well_formed_version m es →
  ∃ b m', build m = Ok b ∧ new SPDMVersionMessage b ∅ = Ok m'
          ∧ packet_eq m' m.
Proof.
  intros Hwf. pose proof (build_well_formed m es Hwf) as Hb.
  destruct Hwf as (Hcls & Hcache & Hpay & Hbytes & Hes & Hrange & Hlen & Hcnt).
  apply Forall_cons in Hbytes as [(ver & Hver & _) Hbytes].
  apply Forall_cons in Hbytes as [(code & Hcode & _) Hbytes].
  apply Forall_cons in Hbytes as [(p1 & Hp1 & _) Hbytes].
  apply Forall_cons in Hbytes as [(p2 & Hp2 & _) Hbytes].
  apply Forall_cons in Hbytes as [(r & Hr & _) _].
  rewrite Hver, Hcode, Hp1, Hp2, Hr in Hb. cbn [byte_of app] in Hb.
  eexists _, _. split; [exact Hb|].
  rewrite new_version. cbv zeta.
  rewrite Nat2Z.id.
  rewrite <- (app_nil_r (flat_map be16 es)) at 1.
  rewrite entry_loop_build by done. rewrite bind_Ok. cbv beta iota.
  split; [reflexivity|].
  split; [by rewrite Hcls|]. split; [|by rewrite Hpay].
  intros f Hf. cbn [class fields_desc SPDMVersionMessage] in Hf.
  destruct (dissected_fields ver code p1 p2 r (Z.of_nat (length es))
              (VList (VInt <$> es)))
    as (H1 & H2 & H3 & H4 & H5 & H6 & H7).
  repeat (apply elem_of_cons in Hf as [-> | Hf]); cbn [fld_name];
    [ etrans; [exact H1 | by symmetry]
    | etrans; [exact H2 | by symmetry]
    | etrans; [exact H3 | by symmetry]
    | etrans; [exact H4 | by symmetry]
    | etrans; [exact H5 | by symmetry]
    | etrans; [exact H6 | by symmetry]
    | etrans; [exact H7 | by symmetry]
    | by apply elem_of_nil in Hf ].
Qed.

(** A dissected packet without payload rebuilds, through its cache, to the
    buffer it was dissected from; this holds for every class. *)
Lemma build_dissected cls b m :
  b ≠ [] → new cls b ∅ = Ok m → payload m = [] → build m = Ok b.
Proof.
  intros Hb Hnew Hpay. rewrite new_no_kwargs in Hnew.
  destruct b as [|x b]; [done|].
  unfold dissect, do_dissect in Hnew.
  destruct (dissect_fields _ _ _) as [[pkt' s']|e]; [|discriminate].
  rewrite !bind_Ok in Hnew. cbv beta iota in Hnew.
  injection Hnew as <-. cbn [payload] in Hpay. subst s'.
  unfold build, self_build. cbn [raw_packet_cache payload length].
  rewrite bind_Ok, Nat.sub_0_r, app_nil_r.
  change (S (length b)) with (length (x :: b)). by rewrite firstn_all.
Qed.

(** The same buffer comes out when the cache is not used and the packet is
    rebuilt field by field. *)
Lemma build_fields_dissected b m :
  Forall (λ x, 0 ≤ x < 256) b →
  b ≠ [] → new SPDMVersionMessage b ∅ = Ok m → payload m = [] →
  build_fields m = Ok b.
Proof.
  intros Hbytes Hb Hnew Hpay.
  destruct (decide (length b < 6)%nat) as [Hshort|Hlong].
  { rewrite new_version_short in Hnew; [discriminate|].
    destruct b; [done | simpl in *; lia]. }
  do 6 (destruct b as [|? b]; [simpl in Hlong; lia|]).
  rename z into ver, z0 into code, z1 into p1, z2 into p2, z3 into r,
    z4 into cnt.
  rewrite new_version in Hnew. cbv zeta in Hnew.
  destruct (getfield_loop _ _ _) as [[s' vs]|e] eqn:Hloop; [|discriminate].
  rewrite bind_Ok in Hnew. cbv beta iota in Hnew.
  injection Hnew as <-. cbn [payload] in Hpay. subst s'.
  do 6 (apply Forall_cons in Hbytes as [? Hbytes]).
  destruct (entry_loop_inv _ _ _ _ _ _ _ Hbytes Hloop)
    as (es & -> & Hrest & Hrange & Hlen).
  rewrite app_nil_r in Hrest. subst b.
  destruct (dissected_fields ver code p1 p2 r cnt (VList (VInt <$> es)))
    as (G1 & G2 & G3 & G4 & G5 & G6 & G7).
  match goal with |- build_fields ?Q' = _ => set (Q := Q') end.
  change (getfieldval Q "SPDMVersion" = VInt ver) in G1.
  change (getfieldval Q "RequestResponseCode" = VInt code) in G2.
  change (getfieldval Q "Param1" = VInt p1) in G3.
  change (getfieldval Q "Param2" = VInt p2) in G4.
  change (getfieldval Q "Reserved" = VInt r) in G5.
  change (getfieldval Q "VersionNumberEntryCount" = VInt cnt) in G6.
  change (getfieldval Q "VersionNumberEntry" = VList (VInt <$> es)) in G7.
  pose proof (build_fields_version Q eq_refl es) as HB.
  rewrite G1, G2, G3, G4, G5, G6 in HB. by apply HB.
Qed.
Example new_kwargs_is_kwargs_packet :
  new SPDMVersionMessage [] (version_kwargs (VInt 5) [0x1000; 0x1200])
  = Ok (kwargs_packet SPDMVersionMessage
          (version_kwargs (VInt 5) [0x1000; 0x1200])).
Proof. vm_compute. reflexivity. Qed.

Example sample_version_message_bytes :
  build sample_version_message = Ok byte_string.
Proof. vm_compute. reflexivity. Qed.

(** C1, as stated, fails at the empty buffer: the class accepts it (an empty
    [_pkt] is not dissected, the packet keeps its defaults), nothing is left
    over, and encoding the result gives six bytes, not none. *)
Lemma C1_counterexample :
  ∃ m, new SPDMVersionMessage [] ∅ = Ok m
       ∧ payload m = []
       ∧ build m = Ok [0x10; 0x04; 0x00; 0x00; 0x00; 0x00]
       ∧ build m ≠ Ok [].
Proof.
  eexists. split; [vm_compute; reflexivity|].
  split; [reflexivity|]. split; [vm_compute; reflexivity|].
  vm_compute. discriminate.
Qed.

(** C1, amended: decoding the encoding of a well-formed VERSION message
    gives a message equal to it; and for every non-empty buffer that the
    VERSION class dissects with nothing left over, encoding the dissected
    message gives the buffer back, both through the cache the dissection
    leaves and, for a buffer of bytes, when the fields are packed afresh. *)
Theorem C1_version_roundtrip :
  (∀ m es, well_formed_version m es →
     ∃ b m', build m = Ok b ∧ new SPDMVersionMessage b ∅ = Ok m'
             ∧ packet_eq m' m)
  ∧ (∀ b m, b ≠ [] → new SPDMVersionMessage b ∅ = Ok m → payload m = [] →
       build m = Ok b
       ∧ (Forall (λ x, 0 ≤ x < 256) b → build_fields m = Ok b)).
Proof.
  split.
  - apply decode_encode_version.
  - intros b m Hb Hnew Hpay. split.
    + by apply (build_dissected SPDMVersionMessage).
    + intros Hbytes. by apply build_fields_dissected.
Qed.

Lemma C1_version_roundtrip_witness :
  (∃ b m', build sample_version_message = Ok b
           ∧ new SPDMVersionMessage b ∅ = Ok m'
           ∧ packet_eq m' sample_version_message)
  ∧ (∃ m, new SPDMVersionMessage byte_string ∅ = Ok m
          ∧ build m = Ok byte_string ∧ build_fields m = Ok byte_string).
Proof.
  split.
  - apply (proj1 C1_version_roundtrip sample_version_message [0x1000; 0x1200]).
    repeat split; try reflexivity.
    + repeat constructor; eexists; (split; [vm_compute; reflexivity | lia]).
    + repeat constructor; lia.
    + simpl. lia.
  - eexists. split; [vm_compute; reflexivity|].
    match goal with
    | |- build ?m = _ ∧ _ =>
        destruct (proj2 C1_version_roundtrip byte_string m) as [H1 H2]
    end.
    + unfold byte_string. discriminate.
    + vm_compute. reflexivity.
    + reflexivity.
    + split; [exact H1 | apply H2].
      unfold byte_string. repeat constructor; lia.
Defined.
(** ** The entry count on the wire *)

(** C3, as stated, fails: the caller's count is what is sent.  Given the two
    entries 0x1000 and 0x1200 and a count of 5, the count byte is 5. *)
Lemma C3_counterexample :
  let m := kwargs_packet SPDMVersionMessage
             (version_kwargs (VInt 5) [0x1000; 0x1200]) in
  new SPDMVersionMessage [] (version_kwargs (VInt 5) [0x1000; 0x1200]) = Ok m
  ∧ build m
    = Ok [0x10; 0x04; 0x00; 0x00; 0x00; 0x05; 0x10; 0x00; 0x12; 0x00]
  ∧ ¬ (∃ b, build m = Ok b ∧ b !! 5%nat = Some 2).
Proof.
  cbv zeta. split; [vm_compute; reflexivity|].
  assert (Hb : build (kwargs_packet SPDMVersionMessage
                        (version_kwargs (VInt 5) [0x1000; 0x1200]))
               = Ok [0x10; 0x04; 0x00; 0x00; 0x00; 0x05;
                     0x10; 0x00; 0x12; 0x00])
    by (vm_compute; reflexivity).
  split; [exact Hb|].
  intros (b & Hb' & H5). rewrite Hb in Hb'. injection Hb' as <-.
  discriminate H5.
Qed.

(** C3, amended: for a VERSION message built by a caller, with [n] entries,
    the count byte sent is [n] when the caller gave no count ([None]), and
    is the caller's count when one was given, whatever [n] is. *)
Theorem C3_entry_count (m : Packet) (es : list Z) :
  class m = SPDMVersionMessage →
  raw_packet_cache m = None →
  Forall (λ k, byte_value (getfieldval m k))
    ["SPDMVersion"; "RequestResponseCode"; "Param1"; "Param2"; "Reserved"] →
  getfieldval m "VersionNumberEntry" = VList (VInt <$> es) →
  Forall (λ e, 0 ≤ e < 65536) es →
  (getfieldval m "VersionNumberEntryCount" = VNone →
   (length es < 256)%nat →
   ∃ b, build m = Ok b ∧ b !! 5%nat = Some (Z.of_nat (length es)))
  ∧ (∀ c, getfieldval m "VersionNumberEntryCount" = VInt c →
          0 ≤ c < 256 →
          ∃ b, build m = Ok b ∧ b !! 5%nat = Some c).
Proof.
  intros Hcls Hcache Hbytes Hes Hrange.
  repeat (apply Forall_cons in Hbytes as [? Hbytes]).
  pose proof (build_fields_version m Hcls es) as HB.
  unfold build, self_build. rewrite Hcache.
  split.
  - intros Hcnt Hlen. rewrite Hcnt in HB.
    rewrite HB by done. rewrite bind_Ok. eexists. split; reflexivity.
  - intros c Hcnt Hc. rewrite Hcnt in HB.
    rewrite HB by done. rewrite bind_Ok. eexists. split; reflexivity.
Qed.

Lemma C3_entry_count_witness :
  (∃ b, build (kwargs_packet SPDMVersionMessage
                 (version_kwargs VNone [0x1000; 0x1200])) = Ok b
        ∧ b !! 5%nat = Some 2)
  ∧ (∃ b, build (kwargs_packet SPDMVersionMessage
                   (version_kwargs (VInt 0x02) [0x1000; 0x1200])) = Ok b
          ∧ b !! 5%nat = Some 2).
Proof.
  split.
  - apply (proj1 (C3_entry_count
                    (kwargs_packet SPDMVersionMessage
                       (version_kwargs VNone [0x1000; 0x1200]))
                    [0x1000; 0x1200] eq_refl eq_refl
                    ltac:(repeat constructor; vm_compute; done)
                    ltac:(vm_compute; reflexivity)
                    ltac:(repeat constructor; lia))).
    + vm_compute. reflexivity.
    + simpl. lia.
  - apply (proj2 (C3_entry_count
                    (kwargs_packet SPDMVersionMessage
                       (version_kwargs (VInt 0x02) [0x1000; 0x1200]))
                    [0x1000; 0x1200] eq_refl eq_refl
                    ltac:(repeat constructor; vm_compute; done)
                    ltac:(vm_compute; reflexivity)
                    ltac:(repeat constructor; lia))).
    + vm_compute. reflexivity.
    + lia.
Defined.

(** ** Byte order of the entries *)

(** C4: the entries go out high byte first.  Dissecting the debugging run's
    buffer gives the entries 0x1000 and 0x1200, not 0x0010 and 0x0012, and
    the entries 0x0010 and 0x0012 are sent as [00 10 00 12]. *)
Theorem C4_entries_high_byte_first :
  fld_fmt (XShortField "Version" VNone) = "!H"
  ∧ (∃ m, new SPDMVersionMessage byte_string ∅ = Ok m
          ∧ getfieldval m "VersionNumberEntryCount" = VInt 2
          ∧ getfieldval m "VersionNumberEntry"
            = VList [VInt 0x1000; VInt 0x1200])
  ∧ build (kwargs_packet SPDMVersionMessage
             (version_kwargs VNone [0x0010; 0x0012]))
    = Ok [0x10; 0x04; 0x00; 0x00; 0x00; 0x02; 0x00; 0x10; 0x00; 0x12]
  ∧ be16 0x0010 ≠ le16 0x0010.
Proof.
  split; [reflexivity|]. split.
  - eexists. split; [vm_compute; reflexivity|].
    split; vm_compute; reflexivity.
  - split; [vm_compute; reflexivity | vm_compute; discriminate].
Qed.

(** ** GET_VERSION *)

(** C5: the default GET_VERSION message is sent as [01 84 00 00]: its
    version byte is 0x01, whose major version is 0, not 0x10; and the
    message dissected from [10 84 00 00] is not the default one. *)
Theorem C5_get_version_default :
  (new SPDMGetVersionMessage [] ∅ ≫= build) = Ok [0x01; 0x84; 0x00; 0x00]
  ∧ getfieldval (empty_packet SPDMGetVersionMessage) "SPDMVersion" = VInt 0x01
  ∧ SPDMUtil.spdm_major_version 0x01 = 0x00
  ∧ SPDMUtil.spdm_major_version SPDM_VERSION = 0x10
  ∧ ∃ m, new SPDMGetVersionMessage [0x10; 0x84; 0x00; 0x00] ∅ = Ok m
         ∧ getfieldval m "SPDMVersion" = VInt 0x10
         ∧ ¬ packet_eq m (empty_packet SPDMGetVersionMessage).
Proof.
  split; [vm_compute; reflexivity|]. split; [vm_compute; reflexivity|].
  split; [reflexivity|]. split; [reflexivity|].
  eexists. split; [vm_compute; reflexivity|].
  split; [vm_compute; reflexivity|].
  intros (_ & Hf & _).
  specialize (Hf (XByteField "SPDMVersion" (VInt 0x1))
                ltac:(by constructor)).
  vm_compute in Hf. discriminate.
Qed.
(** ** Truncated VERSION buffers *)

(** C6, as stated, fails: a buffer that declares three entries and carries
    the bytes of one is dissected without any error, into a message with
    count 3 and one entry. *)
Lemma C6_counterexample :
  ∃ m, new SPDMVersionMessage
         [0x10; 0x04; 0x00; 0x00; 0x00; 0x03; 0x10; 0x00] ∅ = Ok m
       ∧ getfieldval m "VersionNumberEntryCount" = VInt 3
       ∧ getfieldval m "VersionNumberEntry" = VList [VInt 0x1000]
       ∧ payload m = [].
Proof.
  eexists. split; [vm_compute; reflexivity|].
  repeat split; vm_compute; reflexivity.
Qed.

(** C6, amended: dissecting a non-empty buffer of fewer than six bytes
    raises [struct.error].  For a buffer of six bytes or more whose count
    byte declares more entries than the bytes after it can hold,
    dissection raises [struct.error] when the number of those bytes is odd,
    and otherwise succeeds, with one entry per pair of bytes and the
    declared count kept.  With enough bytes, exactly the declared number
    of entries is read and the rest is left as payload. *)
Theorem C6_version_truncation (b : list Z) :
  ((0 < length b < 6)%nat → new SPDMVersionMessage b ∅ = Raise struct_error)
  ∧ (∀ hdr cnt rest,
       b = hdr ++ cnt :: rest → length hdr = 5%nat →
       (Z.of_nat (length rest) < 2 * cnt →
        (Nat.Odd (length rest) →
         new SPDMVersionMessage b ∅ = Raise struct_error)
        ∧ (Nat.Even (length rest) →
           ∃ m vs, new SPDMVersionMessage b ∅ = Ok m
                   ∧ payload m = []
                   ∧ getfieldval m "VersionNumberEntryCount" = VInt cnt
                   ∧ getfieldval m "VersionNumberEntry" = VList vs
                   ∧ (2 * length vs = length rest)%nat))
       ∧ ((0 ≤ 2 * cnt ≤ Z.of_nat (length rest))%Z →
          ∃ m vs, new SPDMVersionMessage b ∅ = Ok m
                  ∧ payload m = drop (2 * Z.to_nat cnt) rest
                  ∧ getfieldval m "VersionNumberEntryCount" = VInt cnt
                  ∧ getfieldval m "VersionNumberEntry" = VList vs
                  ∧ Z.of_nat (length vs) = cnt)).
Proof.
  split; [apply new_version_short|].
  intros hdr cnt rest -> Hhdr.
  do 5 (destruct hdr as [|? hdr]; [discriminate Hhdr|]).
  destruct hdr; [|discriminate Hhdr].
  cbn [app]. rewrite new_version. cbv zeta.
  set (loop := getfield_loop _).
  split; [intros Hlt; split|].
  - intros [k Hk].
    unfold loop. rewrite (entry_loop_short_odd _ _ _ _ _ k); [done | lia..].
  - intros [k Hk].
    destruct (entry_loop_short_even "Version" VNone
                (dissected_header z z0 z1 z2 z3 cnt) (Z.to_nat cnt) rest k)
      as (vs & Hl & Hlen); [lia.. |].
    unfold loop. rewrite Hl, bind_Ok. cbv beta iota.
    eexists _, vs. split; [reflexivity|]. split; [reflexivity|].
    destruct (dissected_fields z z0 z1 z2 z3 cnt (VList vs))
      as (_ & _ & _ & _ & _ & G6 & G7).
    split; [exact G6|]. split; [exact G7 | lia].
  - intros Hge.
    destruct (entry_loop_enough "Version" VNone
                (dissected_header z z0 z1 z2 z3 cnt) (Z.to_nat cnt) rest)
      as (vs & Hl & Hlen); [lia|].
    unfold loop. rewrite Hl, bind_Ok. cbv beta iota.
    eexists _, vs. split; [reflexivity|]. split; [reflexivity|].
    destruct (dissected_fields z z0 z1 z2 z3 cnt (VList vs))
      as (_ & _ & _ & _ & _ & G6 & G7).
    split; [exact G6|]. split; [exact G7 | lia].
Qed.

Lemma C6_version_truncation_witness :
  new SPDMVersionMessage [0x10; 0x04; 0x00; 0x00; 0x00] ∅
  = Raise struct_error
  ∧ new SPDMVersionMessage
      [0x10; 0x04; 0x00; 0x00; 0x00; 0x03; 0x10; 0x00; 0x12] ∅
    = Raise struct_error
  ∧ (∃ m vs, new SPDMVersionMessage
               [0x10; 0x04; 0x00; 0x00; 0x00; 0x03; 0x10; 0x00] ∅ = Ok m
             ∧ payload m = []
             ∧ getfieldval m "VersionNumberEntryCount" = VInt 3
             ∧ getfieldval m "VersionNumberEntry" = VList vs
             ∧ (2 * length vs = 2)%nat).
Proof.
  split; [|split].
  - apply (proj1 (C6_version_truncation [0x10; 0x04; 0x00; 0x00; 0x00])).
    simpl. lia.
  - apply (proj1 (proj1 (proj2 (C6_version_truncation
                    [0x10; 0x04; 0x00; 0x00; 0x00; 0x03; 0x10; 0x00; 0x12])
                   [0x10; 0x04; 0x00; 0x00; 0x00] 0x03 [0x10; 0x00; 0x12]
                   eq_refl eq_refl) ltac:(simpl; lia))).
    exists 1%nat. reflexivity.
  - apply (proj2 (proj1 (proj2 (C6_version_truncation
                    [0x10; 0x04; 0x00; 0x00; 0x00; 0x03; 0x10; 0x00])
                   [0x10; 0x04; 0x00; 0x00; 0x00] 0x03 [0x10; 0x00]
                   eq_refl eq_refl) ltac:(simpl; lia))).
    exists 1%nat. reflexivity.
Defined.

(** ** No check of the code byte *)

Lemma new_get_version ver code p1 p2 rest :
  ∃ m, new SPDMGetVersionMessage (ver :: code :: p1 :: p2 :: rest) ∅ = Ok m
       ∧ getfieldval m "SPDMVersion" = VInt ver
       ∧ getfieldval m "RequestResponseCode" = VInt code
       ∧ payload m = rest.
Proof.
  rewrite new_no_kwargs. unfold dissect, do_dissect.
  change (class (empty_packet SPDMGetVersionMessage))
    with SPDMGetVersionMessage.
  cbn [fields_desc SPDMGetVersionMessage].
  do 4 dissect_byte. cbn [dissect_fields].
  repeat (rewrite bind_Ok; cbv beta iota).
  eexists. split; [reflexivity|]. cbn [payload].
  set (P := set_field (set_field (set_field (set_field
               (empty_packet SPDMGetVersionMessage)
               "SPDMVersion" (VInt ver)) "RequestResponseCode" (VInt code))
               "Param1" (VInt p1)) "Param2" (VInt p2)).
  split; [|split; [|reflexivity]].
  - change (getfieldval P "SPDMVersion" = VInt ver). unfold P.
    rewrite !getfieldval_set_field_ne by done.
    apply getfieldval_set_field.
  - change (getfieldval P "RequestResponseCode" = VInt code). unfold P.
    rewrite !getfieldval_set_field_ne by done.
    apply getfieldval_set_field.
Qed.

Lemma new_placeholder cls x b :
  fields_desc cls = [] →
  new cls (x :: b) ∅
  = Ok {| class := cls; fields := ∅; payload := x :: b;
          raw_packet_cache := Some [] |}.
Proof.
  intros Hcls. rewrite new_no_kwargs. unfold dissect, do_dissect.
  change (class (empty_packet cls)) with cls. rewrite Hcls.
  cbn [dissect_fields]. repeat (rewrite bind_Ok; cbv beta iota).
  cbn [class fields payload empty_packet
    raw_packet_cache]. by rewrite Nat.sub_diag.
Qed.

(** C7, as stated, fails: the six-byte buffer [10 80 00 00 00 00], whose
    second byte is the reserved request code 0x80, is dissected without
    error by every class of the module, and a buffer with the code of
    GET_CAPABILITIES, for which there is no payload layout, is dissected
    without error by its placeholder class. *)
Lemma C7_counterexample :
  0x80 ∈ RESERVED_REQUEST_CODES
  ∧ Forall (λ cls, ∃ m, new cls [0x10; 0x80; 0x00; 0x00; 0x00; 0x00] ∅
                         = Ok m)
      message_classes
  ∧ REQUEST_CODES !! "GET_CAPABILITIES" = Some (Code 0xE1)
  ∧ ∃ m, new SPDMGetCapabilitiesMessage [0x10; 0xE1; 0x00; 0x00] ∅ = Ok m.
Proof.
  split; [apply (bool_decide_eq_true_1 _); vm_compute; reflexivity|].
  split; [|split; [vm_compute; reflexivity|]].
  - unfold message_classes.
    repeat (apply Forall_cons_2; [eexists; vm_compute; reflexivity|]).
    apply Forall_nil_2.
  - eexists. vm_compute. reflexivity.
Qed.

(** C7, amended: the module has no decoder that takes a direction and
    looks the code byte up.  Dissecting four bytes or more as GET_VERSION
    succeeds whatever the second byte is, reserved or not, and stores it as
    the message's code; dissecting any non-empty buffer with one of the six
    placeholder classes succeeds, reads no field and leaves every byte as
    payload. *)
Theorem C7_no_code_check :
  (∀ ver code p1 p2 rest,
     ∃ m, new SPDMGetVersionMessage (ver :: code :: p1 :: p2 :: rest) ∅ = Ok m
          ∧ getfieldval m "RequestResponseCode" = VInt code
          ∧ payload m = rest)
  ∧ Forall (λ cls, ∀ x b,
              new cls (x :: b) ∅
              = Ok {| class := cls; fields := ∅; payload := x :: b;
                      raw_packet_cache := Some [] |})
      placeholder_classes.
Proof.
  split.
  - intros ver code p1 p2 rest.
    destruct (new_get_version ver code p1 p2 rest) as (m & ? & ? & ? & ?).
    by exists m.
  - unfold placeholder_classes.
    repeat (apply Forall_cons_2; [intros x b; by apply new_placeholder|]).
    apply Forall_nil_2.
Qed.
(** * Further properties of the module *)

(** ** Version field *)

Lemma nibbles_of_int (v : Z) :
  SPDMUtil.spdm_major_version v + SPDMUtil.spdm_minor_version v
  = Z.land v 0xFF
  ∧ Z.land (SPDMUtil.spdm_major_version v) (SPDMUtil.spdm_minor_version v)
    = 0.
Proof.
  unfold SPDMUtil.spdm_major_version, SPDMUtil.spdm_minor_version.
  assert (Hdisj : Z.land (Z.land v 0xF0) (Z.land v 0x0F) = 0).
  { rewrite Z.land_assoc, <- (Z.land_assoc v 0xF0 v), (Z.land_comm 0xF0 v),
      Z.land_assoc, Z.land_diag, <- Z.land_assoc.
    change (Z.land 0xF0 0x0F) with 0. apply Z.land_0_r. }
  split; [|exact Hdisj].
  rewrite Z.add_nocarry_lxor, Z.lxor_lor by exact Hdisj.
  rewrite <- Z.land_lor_distr_r. reflexivity.
Qed.

(** X1: the two accessors split a version byte into two parts with no bit in
    common that add back to the byte; the major part has no minor part, the
    minor part no major part, and taking the same part twice changes
    nothing. *)
Theorem X1_version_split (v : Z) :
  0 ≤ v < 256 →
  SPDMUtil.spdm_major_version v + SPDMUtil.spdm_minor_version v = v
  ∧ Z.land (SPDMUtil.spdm_major_version v) (SPDMUtil.spdm_minor_version v)
    = 0
  ∧ SPDMUtil.spdm_minor_version (SPDMUtil.spdm_major_version v) = 0
  ∧ SPDMUtil.spdm_major_version (SPDMUtil.spdm_minor_version v) = 0
  ∧ SPDMUtil.spdm_major_version (SPDMUtil.spdm_major_version v)
    = SPDMUtil.spdm_major_version v
  ∧ SPDMUtil.spdm_minor_version (SPDMUtil.spdm_minor_version v)
    = SPDMUtil.spdm_minor_version v.
Proof.
  intros Hv. destruct (nibbles_of_int v) as [Hsum Hdisj].
  split; [|split; [exact Hdisj|]].
  - rewrite Hsum. change 0xFF with (Z.ones 8).
    rewrite Z.land_ones by lia. apply Z.mod_small. exact Hv.
  - unfold SPDMUtil.spdm_major_version, SPDMUtil.spdm_minor_version.
    rewrite <- !Z.land_assoc.
    change (Z.land 0xF0 0x0F) with 0. change (Z.land 0x0F 0xF0) with 0.
    change (Z.land 0xF0 0xF0) with 0xF0. change (Z.land 0x0F 0x0F) with 0x0F.
    rewrite Z.land_0_r. repeat split; reflexivity.
Qed.

Lemma X1_version_split_witness :
  SPDMUtil.spdm_major_version 0x12 + SPDMUtil.spdm_minor_version 0x12 = 0x12.
Proof. exact (proj1 (X1_version_split 0x12 ltac:(lia))). Defined.

(** ** Code tables *)

Lemma tables_shifted :
  map_Forall (λ b _, is_Some (INVERSE_REQUEST_CODES !! (b + 0x80)))
    INVERSE_RESPONSE_CODES
  ∧ map_Forall (λ b _, is_Some (INVERSE_RESPONSE_CODES !! (b - 0x80)))
      INVERSE_REQUEST_CODES.
Proof.
  split; apply map_Forall_to_list, Forall_forall;
    intros [k x] Hin; vm_compute in Hin;
    repeat (apply elem_of_cons in Hin as [Hin|Hin];
            [inversion Hin; subst; vm_compute; eexists; reflexivity|]);
    by apply elem_of_nil in Hin.
Qed.

(** X2: the request tables are the response tables moved up by 0x80: a byte
    is a named response code exactly when that byte plus 0x80 is a named
    request code, and the reserved request list is the reserved response
    list with 0x80 added to every element. *)
Theorem X2_request_is_response_plus_0x80 (b : Z) :
  (is_Some (codeToName Response b)
   ↔ is_Some (codeToName Request (b + 0x80)))
  ∧ RESERVED_REQUEST_CODES = (λ c, c + 0x80) <$> RESERVED_RESPONSE_CODES.
Proof.
  destruct tables_shifted as [H1 H2]. split; [|vm_compute; reflexivity].
  unfold codeToName. split.
  - intros [n Hn]. exact (H1 _ _ Hn).
  - intros [n Hn]. specialize (H2 _ _ Hn). cbv beta in H2.
    rewrite Z.add_simpl_r in H2. exact H2.
Qed.

Lemma names_in_one_table :
  map_Forall (λ n _, n = "Reserved" ∨ RESPONSE_CODES !! n = None)
    REQUEST_CODES.
Proof.
  apply map_Forall_to_list, Forall_forall.
  intros [k x] Hin; vm_compute in Hin.
  repeat (apply elem_of_cons in Hin as [Hin|Hin];
          [inversion Hin; subst;
           first [left; reflexivity | right; vm_compute; reflexivity]|]).
  by apply elem_of_nil in Hin.
Qed.

(** X3: apart from the key ["Reserved"], no name is a key of both name
    tables, so a message name determines its direction. *)
Theorem X3_names_in_one_direction (n : string) (e1 e2 : code_entry) :
  nameToCode Request n = Some e1 →
  nameToCode Response n = Some e2 →
  n = "Reserved".
Proof.
  unfold nameToCode. intros H1 H2.
  destruct (names_in_one_table n e1 H1) as [->|Hnone]; [done|].
  rewrite H2 in Hnone. discriminate.
Qed.

Lemma X3_names_in_one_direction_witness : "Reserved" = "Reserved".
Proof.
  apply (X3_names_in_one_direction "Reserved"
           (CodeList RESERVED_REQUEST_CODES)
           (CodeList RESERVED_RESPONSE_CODES));
    vm_compute; reflexivity.
Defined.

(** X4: within a direction's half of the byte range, a byte is never both
    named and reserved, and the bytes that are neither named nor reserved are
    exactly 0xDF and 0xFD for requests and 0x5F and 0x7D for responses. *)
Theorem X4_unassigned_bytes (d : direction) (b : Z) :
  own_half d b →
  ¬ (is_Some (codeToName d b) ∧ b ∈ reserved_codes d)
  ∧ (codeToName d b = None ∧ b ∉ reserved_codes d
     ↔ b ∈ unassigned_codes d).
Proof.
  intros Hb. apply own_half_range in Hb. revert b Hb.
  destruct d;
    refine (seqZ_forall
              (λ b, ¬ (is_Some (codeToName _ b) ∧ b ∈ reserved_codes _)
                    ∧ (codeToName _ b = None ∧ b ∉ reserved_codes _
                       ↔ b ∈ unassigned_codes _)) _ 0x80 _);
    vm_compute; reflexivity.
Qed.

Lemma X4_unassigned_bytes_witness :
  codeToName Request 0xDF = None ∧ 0xDF ∉ reserved_codes Request.
Proof.
  apply (proj2 (X4_unassigned_bytes Request 0xDF ltac:(simpl; lia))).
  apply (bool_decide_eq_true_1 _). reflexivity.
Defined.

(** X5: each reserved list is strictly increasing, hence free of repeats,
    and stays within its direction's half of the byte range. *)
Theorem X5_reserved_lists_sorted (d : direction) :
  StronglySorted Z.lt (reserved_codes d)
  ∧ NoDup (reserved_codes d)
  ∧ Forall (own_half d) (reserved_codes d).
Proof.
  assert (Hs : StronglySorted Z.lt (reserved_codes d)).
  { destruct d; apply (bool_decide_eq_true_1 _); vm_compute; reflexivity. }
  split; [exact Hs|]. split.
  - clear -Hs. induction Hs as [|x l _ IH Hx]; constructor; [|exact IH].
    intros Hin. rewrite Forall_forall in Hx. specialize (Hx _ Hin). lia.
  - apply Forall_forall. intros b Hb.
    exact (code_set_own_half d Reserved b Hb).
Qed.
(** ** Dissecting and building again, for any class *)

Lemma getfield_loop_suffix (body : list Z → result (list Z * value)) :
  (∀ s s' v, body s = Ok (s', v) → s' `suffix_of` s) →
  ∀ rounds s s' vs,
    getfield_loop body rounds s = Ok (s', vs) → s' `suffix_of` s.
Proof.
  intros Hbody rounds. induction rounds as [|rounds IH]; intros s s' vs Hl.
  { injection Hl as <- <-. done. }
  destruct s as [|x s]; [injection Hl as <- <-; done|].
  cbn [getfield_loop] in Hl.
  destruct (body (x :: s)) as [[s1 v1]|e] eqn:Hb; [|discriminate].
  rewrite bind_Ok in Hl. cbv beta iota in Hl.
  destruct (getfield_loop body rounds s1) as [[s2 vs2]|e] eqn:Hr;
    [|discriminate].
  injection Hl as <- <-.
  etrans; [exact (IH _ _ _ Hr) | exact (Hbody _ _ _ Hb)].
Qed.

Lemma getfield_suffix f pkt s s' v :
  getfield f pkt s = Ok (s', v) → s' `suffix_of` s.
Proof.
  revert s s' v.
  induction f as [fname d|fname d|fname d count_of adjust fmt
                 |fname field IH d count_from]; intros s s' v Hg;
    try (unfold getfield in Hg;
         destruct (struct_unpack _ _) as [n|e]; [|discriminate];
         injection Hg as <- <-; apply suffix_drop).
  rewrite getfield_FieldListField in Hg.
  destruct (match count_from (getfieldval pkt) with
            | VNone => _ | VInt c => _ | VList _ => _ end)
    as [rounds|e]; [|discriminate].
  rewrite bind_Ok in Hg.
  destruct (getfield_loop _ _ _) as [[s1 vs]|e] eqn:Hl; [|discriminate].
  injection Hg as <- <-.
  exact (getfield_loop_suffix _ IH _ _ _ _ Hl).
Qed.

Lemma dissect_fields_suffix fds pkt s pkt' s' :
  dissect_fields fds pkt s = Ok (pkt', s') →
  s' `suffix_of` s ∧ class pkt' = class pkt.
Proof.
  revert pkt s. induction fds as [|f fds IH]; intros pkt s Hd.
  { injection Hd as <- <-. done. }
  cbn [dissect_fields] in Hd.
  destruct (getfield f pkt s) as [[s1 v1]|e] eqn:Hg; [|discriminate].
  rewrite bind_Ok in Hd. cbv beta iota in Hd.
  destruct (IH _ _ Hd) as [Hs Hc]. split; [|exact Hc].
  etrans; [exact Hs | exact (getfield_suffix _ _ _ _ _ Hg)].
Qed.

(** X6: for any packet class, when a non-empty buffer is dissected without
    an exception, building the resulting packet gives the buffer back, bytes
    left over as payload included; the packet is of the class asked for, and
    its payload is an end piece of the buffer. *)
Theorem X6_dissect_then_build (cls : PacketClass) (b : list Z) (m : Packet) :
  b ≠ [] →
  new cls b ∅ = Ok m →
  build m = Ok b ∧ class m = cls ∧ payload m `suffix_of` b.
Proof.
  intros Hb Hnew. rewrite new_no_kwargs in Hnew.
  destruct b as [|x b]; [done|].
  unfold dissect, do_dissect in Hnew.
  destruct (dissect_fields _ _ _) as [[pkt' s']|e] eqn:Hd; [|discriminate].
  repeat (rewrite bind_Ok in Hnew; cbv beta iota in Hnew).
  injection Hnew as <-.
  destruct (dissect_fields_suffix _ _ _ _ _ Hd) as [[k Hk] Hc].
  split; [|split; [exact Hc | by exists k]].
  unfold build, self_build. cbn [raw_packet_cache payload].
  rewrite bind_Ok. f_equal.
  change (S (length b)) with (length (x :: b)). rewrite Hk.
  rewrite length_app, Nat.add_sub, take_app_length. reflexivity.
Qed.

Lemma X6_dissect_then_build_witness :
  ∃ m, new SPDMGetVersionMessage [0x10; 0x84; 0x00; 0x00; 0xAA] ∅ = Ok m
       ∧ build m = Ok [0x10; 0x84; 0x00; 0x00; 0xAA].
Proof.
  eexists. split; [vm_compute; reflexivity|].
  match goal with
  | |- build ?m = Ok ?b =>
      apply (X6_dissect_then_build SPDMGetVersionMessage b m)
  end.
  - discriminate.
  - vm_compute. reflexivity.
Defined.
(** ** GET_VERSION *)

Section build_get_version.
Variable pkt : Packet.
Hypothesis Hclass : class pkt = SPDMGetVersionMessage.

Lemma build_fields_get_version :
  byte_value (getfieldval pkt "SPDMVersion") →
  byte_value (getfieldval pkt "RequestResponseCode") →
  byte_value (getfieldval pkt "Param1") →
  byte_value (getfieldval pkt "Param2") →
  build_fields pkt
  = Ok [ byte_of (getfieldval pkt "SPDMVersion");
         byte_of (getfieldval pkt "RequestResponseCode");
         byte_of (getfieldval pkt "Param1");
         byte_of (getfieldval pkt "Param2") ].
Proof.
  intros H1 H2 H3 H4. unfold build_fields. rewrite Hclass.
  cbn [fields_desc SPDMGetVersionMessage for_each fld_name].
  repeat (rewrite addfield_XByteField by done; rewrite bind_Ok).
  reflexivity.
Qed.
End build_get_version.

Lemma new_get_version_fields ver code p1 p2 rest :
  ∃ m, new SPDMGetVersionMessage (ver :: code :: p1 :: p2 :: rest) ∅ = Ok m
       ∧ class m = SPDMGetVersionMessage
       ∧ getfieldval m "SPDMVersion" = VInt ver
       ∧ getfieldval m "RequestResponseCode" = VInt code
       ∧ getfieldval m "Param1" = VInt p1
       ∧ getfieldval m "Param2" = VInt p2
       ∧ payload m = rest.
Proof.
  rewrite new_no_kwargs. unfold dissect, do_dissect.
  change (class (empty_packet SPDMGetVersionMessage))
    with SPDMGetVersionMessage.
  cbn [fields_desc SPDMGetVersionMessage].
  do 4 dissect_byte. cbn [dissect_fields].
  repeat (rewrite bind_Ok; cbv beta iota).
  eexists. split; [reflexivity|]. cbn [payload].
  set (P := set_field (set_field (set_field (set_field
               (empty_packet SPDMGetVersionMessage)
               "SPDMVersion" (VInt ver)) "RequestResponseCode" (VInt code))
               "Param1" (VInt p1)) "Param2" (VInt p2)).
  split; [reflexivity|].
  split; [change (getfieldval P "SPDMVersion" = VInt ver)|].
  { unfold P. rewrite !getfieldval_set_field_ne by done.
    apply getfieldval_set_field. }
  split; [change (getfieldval P "RequestResponseCode" = VInt code)|].
  { unfold P. rewrite !getfieldval_set_field_ne by done.
    apply getfieldval_set_field. }
  split; [change (getfieldval P "Param1" = VInt p1)|].
  { unfold P. rewrite !getfieldval_set_field_ne by done.
    apply getfieldval_set_field. }
  split; [change (getfieldval P "Param2" = VInt p2)|reflexivity].
  unfold P. apply getfieldval_set_field.
Qed.

(** X7: a GET_VERSION message built by a caller whose four fields each hold
    a byte is sent as exactly those four bytes, in field order, and
    dissecting those bytes gives a message equal to it. *)
Theorem X7_get_version_roundtrip (m : Packet) :
  class m = SPDMGetVersionMessage →
  raw_packet_cache m = None →
  payload m = [] →
  Forall (holds_byte m)
    ["SPDMVersion"; "RequestResponseCode"; "Param1"; "Param2"] →
  ∃ ver code p1 p2 m',
    getfieldval m "SPDMVersion" = VInt ver
    ∧ getfieldval m "RequestResponseCode" = VInt code
    ∧ getfieldval m "Param1" = VInt p1
    ∧ getfieldval m "Param2" = VInt p2
    ∧ build m = Ok [ver; code; p1; p2]
    ∧ new SPDMGetVersionMessage [ver; code; p1; p2] ∅ = Ok m'
    ∧ packet_eq m' m.
Proof.
  intros Hcls Hcache Hpay Hbytes.
  apply Forall_cons in Hbytes as [(ver & Hver & ?) Hbytes].
  apply Forall_cons in Hbytes as [(code & Hcode & ?) Hbytes].
  apply Forall_cons in Hbytes as [(p1 & Hp1 & ?) Hbytes].
  apply Forall_cons in Hbytes as [(p2 & Hp2 & ?) _].
  destruct (new_get_version_fields ver code p1 p2 [])
    as (m' & Hnew & Hc' & G1 & G2 & G3 & G4 & Hp').
  exists ver, code, p1, p2, m'. repeat split; try done.
  - unfold build, self_build. rewrite Hcache, Hpay.
    rewrite (build_fields_get_version m Hcls);
      rewrite ?Hver, ?Hcode, ?Hp1, ?Hp2; done.
  - by rewrite Hc', Hcls.
  - intros f Hf. rewrite Hc' in Hf.
    cbn [fields_desc SPDMGetVersionMessage] in Hf.
    repeat (apply elem_of_cons in Hf as [-> | Hf]); cbn [fld_name];
      [ by rewrite G1 | by rewrite G2 | by rewrite G3 | by rewrite G4
      | by apply elem_of_nil in Hf ].
  - by rewrite Hp', Hpay.
Qed.

Lemma X7_get_version_roundtrip_witness :
  ∃ ver code p1 p2 m',
    getfieldval (kwargs_packet SPDMGetVersionMessage
                   {["SPDMVersion" := VInt 0x10]}) "SPDMVersion" = VInt ver
    ∧ getfieldval (kwargs_packet SPDMGetVersionMessage
                     {["SPDMVersion" := VInt 0x10]}) "RequestResponseCode"
      = VInt code
    ∧ getfieldval (kwargs_packet SPDMGetVersionMessage
                     {["SPDMVersion" := VInt 0x10]}) "Param1" = VInt p1
    ∧ getfieldval (kwargs_packet SPDMGetVersionMessage
                     {["SPDMVersion" := VInt 0x10]}) "Param2" = VInt p2
    ∧ build (kwargs_packet SPDMGetVersionMessage
               {["SPDMVersion" := VInt 0x10]}) = Ok [ver; code; p1; p2]
    ∧ new SPDMGetVersionMessage [ver; code; p1; p2] ∅ = Ok m'
    ∧ packet_eq m' (kwargs_packet SPDMGetVersionMessage
                      {["SPDMVersion" := VInt 0x10]}).
Proof.
  apply X7_get_version_roundtrip; try reflexivity.
  repeat constructor; eexists; (split; [vm_compute; reflexivity | lia]).
Defined.

(** X8: a non-empty buffer of fewer than four bytes is refused by the
    GET_VERSION class with [struct.error]: the first field that finds no byte
    left raises. *)
Theorem X8_get_version_short (b : list Z) :
  (0 < length b < 4)%nat →
  new SPDMGetVersionMessage b ∅ = Raise struct_error.
Proof.
  intros Hb. rewrite new_no_kwargs.
  destruct b as [|x b]; [simpl in Hb; lia|].
  unfold dissect, do_dissect.
  change (class (empty_packet SPDMGetVersionMessage))
    with SPDMGetVersionMessage.
  cbn [fields_desc SPDMGetVersionMessage].
  assert (dissect_fields
            [ XByteField "SPDMVersion" (VInt 0x1);
              XByteField "RequestResponseCode"
                (code_default REQUEST_CODES "GET_VERSION");
              XByteField "Param1" (VInt 0x00);
              XByteField "Param2" (VInt 0x00) ]
            (empty_packet SPDMGetVersionMessage) (x :: b)
          = Raise struct_error) as ->; [|reflexivity].
  do 3 (destruct b as [|? b];
        [repeat dissect_byte; reflexivity |]).
  simpl in Hb. lia.
Qed.

Lemma X8_get_version_short_witness :
  new SPDMGetVersionMessage [0x10; 0x84] ∅ = Raise struct_error.
Proof. apply X8_get_version_short. simpl. lia. Defined.
(** ** Values that do not fit their field *)

Lemma struct_pack_range fmt v order size :
  struct_parse fmt = Some (order, size) →
  ¬ (0 ≤ v < 256 ^ Z.of_nat size) →
  struct_pack fmt v = Raise struct_error.
Proof.
  intros Hfmt Hv. unfold struct_pack. rewrite Hfmt.
  by rewrite bool_decide_eq_false_2.
Qed.

Lemma addfield_XShortField_range fname d pkt s e :
  ¬ (0 ≤ e < 65536) →
  addfield (XShortField fname d) pkt s (VInt e) = Raise struct_error.
Proof.
  intros He. unfold addfield, fld_fmt. change (field_fmt "H") with "!H".
  cbn [i2m]. rewrite bind_Ok. cbn [pack_value].
  by rewrite (struct_pack_range "!H" e big_endian 2).
Qed.

Lemma for_each_entries_range fname d pkt s es :
  Exists (λ e, ¬ (0 ≤ e < 65536)) es →
  for_each (addfield (XShortField fname d) pkt) s (VInt <$> es)
  = Raise struct_error.
Proof.
  intros Hes. revert s. induction es as [|e es IH]; intros s.
  { by apply Exists_nil in Hes. }
  cbn [fmap list_fmap for_each].
  destruct (decide (0 ≤ e < 65536)) as [He|He].
  - rewrite addfield_XShortField, bind_Ok by done.
    apply IH. apply Exists_cons in Hes as [?|?]; done.
  - by rewrite addfield_XShortField_range.
Qed.

Lemma addfield_count_overflow pkt s es :
  class pkt = SPDMVersionMessage →
  getfieldval pkt "VersionNumberEntry" = VList (VInt <$> es) →
  (255 < length es)%nat →
  addfield (FieldLenField "VersionNumberEntryCount" VNone
              "VersionNumberEntry" (λ pkt x, x) "B") pkt s VNone
  = Raise struct_error.
Proof.
  intros Hcls Hes Hlen. unfold addfield, i2m.
  rewrite (get_field_entries pkt Hcls), Hes, bind_Ok.
  cbn [i2count pack_value fld_fmt]. change (field_fmt "B") with "!B".
  rewrite length_fmap.
  rewrite (struct_pack_range "!B" _ big_endian 1);
    [reflexivity | reflexivity | ].
  change (256 ^ Z.of_nat 1) with 256. lia.
Qed.

(** X9: a VERSION message built by a caller cannot be sent, and building it
    raises [struct.error], when its count is left to be derived and it has
    more than 255 entries, or when one of its entries is not a 16-bit
    value. *)
Theorem X9_version_build_bounds (m : Packet) (es : list Z) :
  class m = SPDMVersionMessage →
  raw_packet_cache m = None →
  Forall (λ k, byte_value (getfieldval m k))
    ["SPDMVersion"; "RequestResponseCode"; "Param1"; "Param2"; "Reserved"] →
  getfieldval m "VersionNumberEntry" = VList (VInt <$> es) →
  (getfieldval m "VersionNumberEntryCount" = VNone →
   (255 < length es)%nat → build m = Raise struct_error)
  ∧ (byte_value (getfieldval m "VersionNumberEntryCount") →
     (length es < 256)%nat →
     Exists (λ e, ¬ (0 ≤ e < 65536)) es →
     build m = Raise struct_error).
Proof.
  intros Hcls Hcache Hbytes Hes.
  repeat (apply Forall_cons in Hbytes as [? Hbytes]).
  unfold build, self_build, build_fields. rewrite Hcache, Hcls.
  cbn [fields_desc SPDMVersionMessage for_each fld_name].
  repeat (rewrite addfield_XByteField by done; rewrite bind_Ok).
  split.
  - intros Hcnt Hlen. rewrite Hcnt.
    by rewrite (addfield_count_overflow m _ es).
  - intros Hcnt Hlen Hbad.
    rewrite (addfield_count m Hcls _ es) by
      (try done; destruct (getfieldval m "VersionNumberEntryCount"); done).
    rewrite bind_Ok, Hes, addfield_FieldListField.
    by rewrite for_each_entries_range.
Qed.

Lemma X9_version_build_bounds_witness :
  build (kwargs_packet SPDMVersionMessage
           (version_kwargs VNone (replicate 256 0x1000)))
  = Raise struct_error
  ∧ build (kwargs_packet SPDMVersionMessage
             (version_kwargs VNone [0x1000; 0x10000]))
    = Raise struct_error.
Proof.
  split.
  - apply (proj1 (X9_version_build_bounds
                    (kwargs_packet SPDMVersionMessage
                       (version_kwargs VNone (replicate 256 0x1000)))
                    (replicate 256 0x1000) eq_refl eq_refl
                    ltac:(repeat constructor; vm_compute; done)
                    ltac:(vm_compute; reflexivity))).
    + vm_compute. reflexivity.
    + rewrite length_replicate. lia.
  - apply (proj2 (X9_version_build_bounds
                    (kwargs_packet SPDMVersionMessage
                       (version_kwargs VNone [0x1000; 0x10000]))
                    [0x1000; 0x10000] eq_refl eq_refl
                    ltac:(repeat constructor; vm_compute; done)
                    ltac:(vm_compute; reflexivity))).
    + vm_compute. done.
    + simpl. lia.
    + apply Exists_cons_tl, Exists_cons_hd. lia.
Defined.
(** ** What a dissected VERSION message can look like *)

Lemma entry_loop_leftover fname d pkt n s s' vs :
  getfield_loop (getfield (XShortField fname d) pkt) n s = Ok (s', vs) →
  s' ≠ [] → length vs = n.
Proof.
  revert s s' vs. induction n as [|n IH]; intros s s' vs Hl Hs'.
  { by injection Hl as <- <-. }
  destruct s as [|hi [|lo s]].
  - by injection Hl as <- <-.
  - discriminate.
  - rewrite entry_loop_cons in Hl.
    destruct (getfield_loop _ n s) as [[s1 vs1]|] eqn:Hn; [|discriminate].
    injection Hl as <- <-. simpl. f_equal. by eapply IH.
Qed.

(** X10: when a buffer of six bytes or more, all of them bytes, is dissected
    as a VERSION message, the message never has more entries than its count
    byte declares; every entry is a 16-bit value; the buffer is the six
    leading bytes, then two bytes per entry, high byte first, then the
    payload; and bytes can only be left over as payload once all the
    declared entries have been read. *)
Theorem X10_version_dissect_shape (hdr : list Z) (cnt : Z) (rest : list Z)
    (m : Packet) :
  length hdr = 5%nat →
  0 ≤ cnt < 256 →
  Forall (λ x, 0 ≤ x < 256) rest →
  new SPDMVersionMessage (hdr ++ cnt :: rest) ∅ = Ok m →
  ∃ es : list Z,
    getfieldval m "VersionNumberEntryCount" = VInt cnt
    ∧ getfieldval m "VersionNumberEntry" = VList (VInt <$> es)
    ∧ Forall (λ e, 0 ≤ e < 65536) es
    ∧ (Z.of_nat (length es) ≤ cnt)%Z
    ∧ rest = flat_map be16 es ++ payload m
    ∧ (payload m ≠ [] → Z.of_nat (length es) = cnt).
Proof.
  intros Hhdr Hcnt Hbytes Hnew.
  do 5 (destruct hdr as [|? hdr]; [discriminate Hhdr|]).
  destruct hdr; [|discriminate Hhdr].
  cbn [app] in Hnew. rewrite new_version in Hnew. cbv zeta in Hnew.
  destruct (getfield_loop _ _ _) as [[s' vs]|e] eqn:Hloop; [|discriminate].
  rewrite bind_Ok in Hnew. cbv beta iota in Hnew. injection Hnew as <-.
  destruct (entry_loop_inv _ _ _ _ _ _ _ Hbytes Hloop)
    as (es & -> & Hrest & Hrange & Hlen).
  destruct (dissected_fields z z0 z1 z2 z3 cnt (VList (VInt <$> es)))
    as (_ & _ & _ & _ & _ & G6 & G7).
  exists es. split; [exact G6|]. split; [exact G7|]. split; [exact Hrange|].
  split; [lia|]. split; [exact Hrest|].
  cbn [payload]. intros Hs'.
  pose proof (entry_loop_leftover _ _ _ _ _ _ _ Hloop Hs') as Hn.
  rewrite length_fmap in Hn. lia.
Qed.

Lemma X10_version_dissect_shape_witness :
  ∃ m es,
    new SPDMVersionMessage byte_string ∅ = Ok m
    ∧ getfieldval m "VersionNumberEntry" = VList (VInt <$> es)
    ∧ [0x10; 0x00; 0x12; 0x00] = flat_map be16 es ++ payload m.
Proof.
  destruct (new SPDMVersionMessage byte_string ∅) as [m|e] eqn:Hnew;
    [|vm_compute in Hnew; discriminate].
  destruct (X10_version_dissect_shape [0x10; 0x04; 0x00; 0x00; 0x00] 0x02
              [0x10; 0x00; 0x12; 0x00] m eq_refl ltac:(lia)
              ltac:(repeat constructor; lia) Hnew)
    as (es & _ & H2 & _ & _ & H5 & _).
  by exists m, es.
Defined.
(** ** Where the entries sit on the wire *)

Lemma flat_map_be16_length es : length (flat_map be16 es) = (2 * length es)%nat.
Proof. induction es as [|e es IH]; simpl; lia. Qed.

Lemma flat_map_be16_lookup es k e :
  es !! k = Some e →
  flat_map be16 es !! (2 * k)%nat = Some (e `div` 256)
  ∧ flat_map be16 es !! S (2 * k) = Some (e `mod` 256).
Proof.
  revert k. induction es as [|e' es IH]; intros k Hk; [done|].
  destruct k as [|k].
  - injection Hk as ->. done.
  - replace (2 * S k)%nat with (S (S (2 * k))) by lia.
    exact (IH k Hk).
Qed.

(** X11: the encoding of a well-formed VERSION message with [n] entries is
    [6 + 2n] bytes long, and the entries come in the order of the list: the
    [k]-th one (from 0) has its high byte at offset [6 + 2k] and its low byte
    right after. *)
Theorem X11_version_wire_layout (m : Packet) (es : list Z) :
  well_formed_version m es →
  ∃ b, build m = Ok b
       ∧ length b = (6 + 2 * length es)%nat
       ∧ ∀ k e, es !! k = Some e →
                b !! (6 + 2 * k)%nat = Some (e `div` 256)
                ∧ b !! (7 + 2 * k)%nat = Some (e `mod` 256).
Proof.
  intros Hwf. eexists. split; [exact (build_well_formed m es Hwf)|].
  split.
  - rewrite length_app, flat_map_be16_length. reflexivity.
  - intros k e Hk. destruct (flat_map_be16_lookup es k e Hk) as [H1 H2].
    split; [exact H1 | exact H2].
Qed.

Lemma X11_version_wire_layout_witness :
  ∃ b, build sample_version_message = Ok b
       ∧ length b = 10%nat
       ∧ b !! 8%nat = Some 0x12.
Proof.
  destruct (X11_version_wire_layout sample_version_message [0x1000; 0x1200])
    as (b & Hb & Hlen & Hk).
  - repeat split; try reflexivity.
    + repeat constructor; eexists; (split; [vm_compute; reflexivity | lia]).
    + repeat constructor; lia.
    + simpl. lia.
  - exists b. split; [exact Hb|]. split; [exact Hlen|].
    exact (proj1 (Hk 1%nat 0x1200 eq_refl)).
Defined.

(** ** The placeholder classes *)

(** X12: each of the six classes declared with [pass] has no field: a new
    instance builds to no bytes at all, and dissecting any buffer, empty or
    not, and building the result gives the buffer back unchanged. *)
Theorem X12_placeholders_pass_bytes_through :
  Forall (λ cls, fields_desc cls = []
                 ∧ (new cls [] ∅ ≫= build) = Ok []
                 ∧ ∀ b, (new cls b ∅ ≫= build) = Ok b)
    placeholder_classes.
Proof.
  assert (H : ∀ cls, fields_desc cls = [] →
                     ∀ b, (new cls b ∅ ≫= build) = Ok b).
  { intros cls Hcls [|x b].
    - rewrite new_no_kwargs, bind_Ok.
      unfold build, self_build, build_fields.
      cbn [raw_packet_cache class payload empty_packet]. by rewrite Hcls.
    - rewrite (new_placeholder cls x b Hcls), bind_Ok. reflexivity. }
  unfold placeholder_classes.
  repeat (apply Forall_cons_2;
          [split; [reflexivity | split; [|intros b]; by apply H]|]).
  apply Forall_nil_2.
Qed.

(** ** Leaving the count to be derived *)

(** X13: when a caller leaves the count of a VERSION message to be derived
    (and any of the three parameter bytes unset), what the message is
    dissected back to, from the bytes it is sent as, holds the number of
    entries as its count, a 0 for every byte left unset, the same entries,
    and is sent as the same bytes again. *)
Theorem X13_version_derived_count_roundtrip (m : Packet) (es : list Z) :
  class m = SPDMVersionMessage →
  raw_packet_cache m = None →
  payload m = [] →
  Forall (λ k, byte_value (getfieldval m k))
    ["SPDMVersion"; "RequestResponseCode"; "Param1"; "Param2"; "Reserved"] →
  getfieldval m "VersionNumberEntryCount" = VNone →
  getfieldval m "VersionNumberEntry" = VList (VInt <$> es) →
  Forall (λ e, 0 ≤ e < 65536) es →
  (length es < 256)%nat →
  ∃ b m',
    build m = Ok b
    ∧ new SPDMVersionMessage b ∅ = Ok m'
    ∧ getfieldval m' "VersionNumberEntryCount" = VInt (Z.of_nat (length es))
    ∧ getfieldval m' "VersionNumberEntry" = VList (VInt <$> es)
    ∧ Forall (λ k, getfieldval m' k = VInt (byte_of (getfieldval m k)))
        ["SPDMVersion"; "RequestResponseCode"; "Param1"; "Param2";
         "Reserved"]
    ∧ payload m' = []
    ∧ build m' = Ok b.
Proof.
  intros Hcls Hcache Hpay Hbytes Hcnt Hes Hrange Hlen.
  repeat (apply Forall_cons in Hbytes as [? Hbytes]).
  pose proof (build_fields_version m Hcls es) as HB.
  rewrite Hcnt in HB. specialize (HB ltac:(done) ltac:(done) ltac:(done)
    ltac:(done) ltac:(done) Hlen Hes Hrange).
  eexists _, _. split.
  { unfold build, self_build. rewrite Hcache, HB, Hpay, bind_Ok, app_nil_r.
    reflexivity. }
  cbn [app]. rewrite new_version. cbv zeta. rewrite Nat2Z.id.
  rewrite <- (app_nil_r (flat_map be16 es)) at 1.
  rewrite entry_loop_build by done. rewrite bind_Ok. cbv beta iota.
  split; [reflexivity|].
  match goal with
  | |- context [dissected_header ?a ?b ?c ?d ?e ?f] =>
      destruct (dissected_fields a b c d e f (VList (VInt <$> es)))
        as (G1 & G2 & G3 & G4 & G5 & G6 & G7)
  end.
  split; [exact G6|]. split; [exact G7|]. split.
  { apply Forall_cons_2; [exact G1|]. apply Forall_cons_2; [exact G2|].
    apply Forall_cons_2; [exact G3|]. apply Forall_cons_2; [exact G4|].
    apply Forall_cons_2; [exact G5|]. apply Forall_nil_2. }
  split; [reflexivity|].
  unfold build, self_build. cbn [raw_packet_cache payload].
  rewrite bind_Ok, app_nil_r. f_equal.
  change (length (@nil Z)) with 0%nat. rewrite Nat.sub_0_r.
  apply firstn_all.
Qed.

Lemma X13_version_derived_count_roundtrip_witness :
  ∃ b m',
    build (kwargs_packet SPDMVersionMessage
             (version_kwargs VNone [0x1000; 0x1200])) = Ok b
    ∧ new SPDMVersionMessage b ∅ = Ok m'
    ∧ getfieldval m' "VersionNumberEntryCount" = VInt 2
    ∧ build m' = Ok b.
Proof.
  destruct (X13_version_derived_count_roundtrip
              (kwargs_packet SPDMVersionMessage
                 (version_kwargs VNone [0x1000; 0x1200]))
              [0x1000; 0x1200] eq_refl eq_refl eq_refl
              ltac:(repeat constructor; vm_compute; done)
              ltac:(vm_compute; reflexivity)
              ltac:(vm_compute; reflexivity)
              ltac:(repeat constructor; lia)
              ltac:(simpl; lia))
    as (b & m' & H1 & H2 & H3 & _ & _ & _ & H7).
  by exists b, m'.
Defined.
(** ** Building a VERSION message from keyword arguments *)

Lemma new_version_kwargs cnt es :
  new SPDMVersionMessage [] (version_kwargs cnt es)
  = Ok (kwargs_packet SPDMVersionMessage (version_kwargs cnt es)).
Proof.
  unfold new. rewrite bind_Ok.
  assert (Hdom : bool_decide
                   (dom (version_kwargs cnt es)
                    ⊆ (list_to_set
                         (fld_name <$> fields_desc SPDMVersionMessage)
                       : gset string)) = true)
    by (vm_compute; reflexivity).
  rewrite Hdom. reflexivity.
Qed.

(** X14: a VERSION message made from the two keyword arguments of the
    debugging run, a count [c] that is a byte and a list of 16-bit entries,
    is sent as the class defaults 0x10 and 0x04, three zero bytes for the
    fields left unset, the count [c] as given, and the entries in order, two
    bytes each, high byte first. *)
Theorem X14_version_from_kwargs (c : Z) (es : list Z) :
  0 ≤ c < 256 →
  Forall (λ e, 0 ≤ e < 65536) es →
  (new SPDMVersionMessage [] (version_kwargs (VInt c) es) ≫= build)
  = Ok ([0x10; 0x04; 0x00; 0x00; 0x00; c] ++ flat_map be16 es).
Proof.
  intros Hc Hes. rewrite new_version_kwargs, bind_Ok.
  set (m := kwargs_packet SPDMVersionMessage (version_kwargs (VInt c) es)).
  assert (Hd : ∀ k, k ≠ "VersionNumberEntryCount" →
                    k ≠ "VersionNumberEntry" →
                    fields m !! k = None).
  { intros k H1 H2. unfold m, kwargs_packet, version_kwargs.
    cbn [fields list_to_map foldr fst snd curry].
    by rewrite !lookup_insert_ne, lookup_empty. }
  assert (G1 : getfieldval m "SPDMVersion" = VInt 0x10)
    by (unfold getfieldval; rewrite Hd by done; reflexivity).
  assert (G2 : getfieldval m "RequestResponseCode" = VInt 0x04)
    by (unfold getfieldval; rewrite Hd by done; vm_compute; reflexivity).
  assert (G3 : getfieldval m "Param1" = VNone)
    by (unfold getfieldval; rewrite Hd by done; reflexivity).
  assert (G4 : getfieldval m "Param2" = VNone)
    by (unfold getfieldval; rewrite Hd by done; reflexivity).
  assert (G5 : getfieldval m "Reserved" = VNone)
    by (unfold getfieldval; rewrite Hd by done; reflexivity).
  assert (G6 : getfieldval m "VersionNumberEntryCount" = VInt c).
  { unfold getfieldval, m, kwargs_packet, version_kwargs.
    cbn [fields list_to_map foldr fst snd curry].
    by rewrite lookup_insert_eq. }
  assert (G7 : getfieldval m "VersionNumberEntry" = VList (VInt <$> es)).
  { unfold getfieldval, m, kwargs_packet, version_kwargs.
    cbn [fields list_to_map foldr fst snd curry].
    rewrite lookup_insert_ne by done. by rewrite lookup_insert_eq. }
  pose proof (build_fields_version m eq_refl es) as HB.
  rewrite G1, G2, G3, G4, G5, G6 in HB.
  unfold build, self_build. cbn [raw_packet_cache m kwargs_packet payload].
  rewrite HB by (simpl; done || lia). rewrite bind_Ok, app_nil_r.
  reflexivity.
Qed.

Lemma X14_version_from_kwargs_witness :
  (new SPDMVersionMessage [] (version_kwargs (VInt 0x02) [0x1000; 0x1200])
     ≫= build)
  = Ok byte_string.
Proof.
  apply (X14_version_from_kwargs 0x02 [0x1000; 0x1200]); [lia|].
  repeat constructor; lia.
Defined.
(** ** Different messages, different bytes *)

Lemma packet_eq_sym a b : packet_eq a b → packet_eq b a.
Proof.
  intros (Hc & Hf & Hp). split; [done|]. split; [|done].
  intros f Hin. rewrite <- Hc in Hin. symmetry. by apply Hf.
Qed.

Lemma packet_eq_trans a b c : packet_eq a b → packet_eq b c → packet_eq a c.
Proof.
  intros (Hc1 & Hf1 & Hp1) (Hc2 & Hf2 & Hp2).
  split; [congruence|]. split; [|congruence].
  intros f Hin. rewrite (Hf1 f Hin). apply Hf2. by rewrite <- Hc1.
Qed.

(** X15: two well-formed VERSION messages that are sent as the same bytes
    are equal: the encoding loses nothing of a well-formed message. *)
Theorem X15_version_encoding_injective (m1 m2 : Packet) (es1 es2 : list Z) :
  well_formed_version m1 es1 →
  well_formed_version m2 es2 →
  build m1 = build m2 →
  packet_eq m1 m2 ∧ es1 = es2.
Proof.
  intros Hwf1 Hwf2 Hb.
  destruct (decode_encode_version m1 es1 Hwf1) as (b1 & m1' & Hb1 & Hn1 & He1).
  destruct (decode_encode_version m2 es2 Hwf2) as (b2 & m2' & Hb2 & Hn2 & He2).
  assert (b1 = b2) as <- by congruence.
  assert (m1' = m2') as <- by congruence.
  assert (Heq : packet_eq m1 m2)
    by (eapply packet_eq_trans; [apply packet_eq_sym|]; eassumption).
  split; [exact Heq|].
  destruct Hwf1 as (Hc1 & _ & _ & _ & Hes1 & _).
  destruct Hwf2 as (_ & _ & _ & _ & Hes2 & _).
  destruct Heq as (_ & Hf & _).
  specialize (Hf (FieldListField "VersionNumberEntry"
                    (XShortField "Version" VNone) VNone
                    (λ pkt, pkt "VersionNumberEntryCount"))).
  rewrite Hc1 in Hf. cbn [fld_name] in Hf.
  rewrite Hes1, Hes2 in Hf.
  specialize (Hf ltac:(cbn [fields_desc SPDMVersionMessage];
                       repeat constructor)).
  injection Hf as Hf. clear -Hf.
  revert es2 Hf. induction es1 as [|e es1 IH]; intros [|e' es2] Hf;
    try discriminate; [reflexivity|].
  injection Hf as -> Hf. f_equal. by apply IH.
Qed.

Lemma X15_version_encoding_injective_witness :
  packet_eq sample_version_message sample_version_message.
Proof.
  assert (Hwf : well_formed_version sample_version_message [0x1000; 0x1200]).
  { repeat split; try reflexivity.
    - repeat constructor; eexists; (split; [vm_compute; reflexivity | lia]).
    - repeat constructor; lia.
    - simpl. lia. }
  exact (proj1 (X15_version_encoding_injective _ _ _ _ Hwf Hwf eq_refl)).
Defined.
